(** * Dynamic statistical analyzer: data-type detection, test selection and
    the three hypothesis tests of [src/lib/dynamicStatisticalAnalyzer.py].

    Number model.  The analyzer computes with Python numbers and NumPy
    [float64] values.  Finite values are modelled as canonical rationals
    ([Qc]) with exact arithmetic: rounding, overflow, underflow and the sign
    of zero are not modelled (a zero divisor counts as [+0]).  The IEEE
    special values are kept, because the two kinds of arithmetic in the
    source differ exactly there: a Python division by zero raises
    [ZeroDivisionError], a NumPy division by zero yields [inf] or [nan] and
    goes on.  Sample values are finite.

    Library functions.  [np.sqrt] on finite non-negative arguments and the
    SciPy distribution functions are not code of the analyzer; definitions
    take them from the [NumLib] interface.

    The callers of the analyzer in the same file, and the planning and
    summary functions of [src/lib/statistics.py], are modelled after the
    tests, on the same numbers. *)

From Stdlib Require Import String List Bool Arith ZArith Lia Sorted.
From Stdlib Require Import QArith Qcanon Qcabs Qround.
Import ListNotations.

Set Implicit Arguments.

(* ================================================================== *)
(** ** Exceptions and fallible results *)

Inductive exn : Type :=
| ZeroDivisionError
| ValueError (msg : string).

Inductive outcome (A : Type) : Type :=
| Ok (a : A)
| Raise (e : exn).

Arguments Ok {A} a.
Arguments Raise {A} e.

Definition bind {A B : Type} (m : outcome A) (k : A -> outcome B) : outcome B :=
  match m with
  | Ok a => k a
  | Raise e => Raise e
  end.

Notation "x <- m ;; k" := (bind m (fun x => k))
  (at level 61, m at next level, right associativity).

Definition succeeds {A : Type} (m : outcome A) : Prop := exists a, m = Ok a.

(* ================================================================== *)
(** ** Numbers *)

Open Scope Qc_scope.

(** A [float64] value: finite, or one of the IEEE special values. *)
Inductive num : Type :=
| Fin (q : Qc)
| PInf
| NInf
| NaN.

Definition Qc_eqb (x y : Qc) : bool := Qeq_bool x y.
Definition Qc_ltb (x y : Qc) : bool :=
  match x ?= y with Lt => true | _ => false end.
Definition Qc_leb (x y : Qc) : bool :=
  match x ?= y with Gt => false | _ => true end.

(** [len(xs)] as a number. *)
Definition QcN (n : nat) : Qc := Q2Qc (inject_Z (Z.of_nat n)).
Definition QcZ (z : Z) : Qc := Q2Qc (inject_Z z).

Definition two : Qc := QcZ 2.
Definition half : Qc := Q2Qc (1 # 2).

Definition nneg (x : num) : num :=
  match x with
  | Fin a => Fin (- a)
  | PInf => NInf
  | NInf => PInf
  | NaN => NaN
  end.

Definition nadd (x y : num) : num :=
  match x, y with
  | NaN, _ | _, NaN => NaN
  | Fin a, Fin b => Fin (a + b)
  | PInf, NInf | NInf, PInf => NaN
  | PInf, _ | _, PInf => PInf
  | NInf, _ | _, NInf => NInf
  end.

Definition nsub (x y : num) : num := nadd x (nneg y).

(** The infinity of the sign of [a]; [inf * 0] is [nan]. *)
Definition inf_signed (a : Qc) : num :=
  match a ?= 0 with
  | Gt => PInf
  | Lt => NInf
  | Eq => NaN
  end.

Definition nmul (x y : num) : num :=
  match x, y with
  | NaN, _ | _, NaN => NaN
  | Fin a, Fin b => Fin (a * b)
  | PInf, Fin a | Fin a, PInf => inf_signed a
  | NInf, Fin a | Fin a, NInf => inf_signed (- a)
  | PInf, PInf | NInf, NInf => PInf
  | PInf, NInf | NInf, PInf => NInf
  end.

(** NumPy true division.  A finite non-zero value over zero is an infinity,
    [0 / 0] and [inf / inf] are [nan], a finite value over an infinity is 0. *)
Definition ndiv (x y : num) : num :=
  match x, y with
  | NaN, _ | _, NaN => NaN
  | Fin a, Fin b => if Qc_eqb b 0 then inf_signed a else Fin (a / b)
  | Fin _, PInf | Fin _, NInf => Fin 0
  | PInf, Fin b => if Qc_ltb b 0 then NInf else PInf
  | NInf, Fin b => if Qc_ltb b 0 then PInf else NInf
  | PInf, PInf | PInf, NInf | NInf, PInf | NInf, NInf => NaN
  end.

(** [x ** 2]. *)
Definition nsq (x : num) : num := nmul x x.

Definition nabs (x : num) : num :=
  match x with
  | Fin a => Fin (Qcabs a)
  | PInf | NInf => PInf
  | NaN => NaN
  end.

(** [np.sign]. *)
Definition nsign (x : num) : num :=
  match x with
  | Fin a => match a ?= 0 with Gt => Fin 1 | Lt => Fin (- (1)) | Eq => Fin 0 end
  | PInf => Fin 1
  | NInf => Fin (- (1))
  | NaN => NaN
  end.

(** [x < y]: false as soon as an operand is [nan]. *)
Definition nlt (x y : num) : bool :=
  match x, y with
  | NaN, _ | _, NaN => false
  | Fin a, Fin b => Qc_ltb a b
  | Fin _, PInf | NInf, Fin _ | NInf, PInf => true
  | Fin _, NInf | NInf, NInf | PInf, _ => false
  end.

Definition nle (x y : num) : bool :=
  match x, y with
  | NaN, _ | _, NaN => false
  | Fin a, Fin b => Qc_leb a b
  | Fin _, PInf | NInf, _ | PInf, PInf => true
  | Fin _, NInf | PInf, Fin _ | PInf, NInf => false
  end.

(** [x == y] on floats: [nan] equals nothing. *)
Definition neqb (x y : num) : bool :=
  match x, y with
  | Fin a, Fin b => Qc_eqb a b
  | PInf, PInf | NInf, NInf => true
  | _, _ => false
  end.

(** [np.minimum]: propagates [nan]. *)
Definition nmin (x y : num) : num :=
  match x, y with
  | NaN, _ | _, NaN => NaN
  | _, _ => if nle x y then x else y
  end.

Definition nsum (l : list num) : num := fold_left nadd l (Fin 0).

(** Python division of two finite numbers. *)
Definition py_div (x y : Qc) : outcome Qc :=
  if Qc_eqb y 0 then Raise ZeroDivisionError else Ok (x / y).

(** Python [sum] of a list of finite numbers. *)
Definition sum (l : list Qc) : Qc := fold_left Qcplus l 0.

(* ================================================================== *)
(** ** The numeric library the analyzer calls *)

(** [np_sqrt] is [np.sqrt] on a finite non-negative argument.  The others are
    the [scipy.stats] functions of the same names: [t_cdf x df] is
    [stats.t.cdf(x, df)], [t_ppf q df] is [stats.t.ppf(q, df)], [norm_cdf]
    and [norm_ppf] are [stats.norm.cdf] and [stats.norm.ppf], and
    [chi2_sf x k] is the survival function [stats.chi2.sf(x, k)] from which
    [stats.chi2_contingency] takes its p-value. *)
Class NumLib : Type := {
  np_sqrt : Qc -> Qc;
  t_cdf : num -> num -> num;
  t_ppf : num -> num -> num;
  norm_cdf : num -> num;
  norm_ppf : num -> num;
  chi2_sf : num -> Z -> num
}.

(** [np.sqrt] on a [float64]: [nan] below zero, [inf] at [inf]. *)
Definition nsqrt {L : NumLib} (x : num) : num :=
  match x with
  | Fin a => if Qc_ltb a 0 then NaN else Fin (np_sqrt a)
  | PInf => PInf
  | NInf | NaN => NaN
  end.

(* ================================================================== *)
(** ** Data model *)

Inductive DataType : Type := continuous | binary | categorical.
Inductive TestType : Type := t_test | z_test | chi_squared.
Inductive Decision : Type := reject | fail_to_reject.

Definition DataType_eqb (x y : DataType) : bool :=
  match x, y with
  | continuous, continuous | binary, binary | categorical, categorical => true
  | _, _ => false
  end.

Record StatisticalInputs : Type := {
  group_a : list Qc;
  group_b : list Qc;
  significance_level : Qc;
  power : Qc;
  confidence_level : Qc
}.

Record Interval : Type := { lower : num; upper : num }.

(** The result record.  [decision] is [interpretation['decision']] and
    [method] is [test_details['method']]; the formatted prose of
    [interpretation] and the fixed hypothesis texts carry no number of their
    own and are left out. *)
Record StatisticalResult : Type := {
  data_type : DataType;
  test_type : TestType;
  test_statistic : num;
  p_value : num;
  confidence_interval : Interval;
  effect_size : num;
  is_significant : bool;
  decision : Decision;
  method : string
}.

Definition decide_on (is_significant : bool) : Decision :=
  if is_significant then reject else fail_to_reject.

(* ================================================================== *)
(** ** Python list helpers *)

Definition mem (x : Qc) (l : list Qc) : bool := existsb (Qc_eqb x) l.

(** [list(set(data))]: one representative per value.  The order Python
    gives is unspecified; every use below is independent of it. *)
Fixpoint py_set (data : list Qc) : list Qc :=
  match data with
  | [] => []
  | x :: rest => if mem x rest then py_set rest else x :: py_set rest
  end.

(** [data.count(value)]. *)
Fixpoint count (data : list Qc) (value : Qc) : nat :=
  match data with
  | [] => 0
  | x :: rest => (if Qc_eqb x value then 1 else 0) + count rest value
  end.

Fixpoint insert_sorted (x : Qc) (l : list Qc) : list Qc :=
  match l with
  | [] => [x]
  | y :: rest => if Qc_leb x y then x :: l else y :: insert_sorted x rest
  end.

(** [sorted(l)]. *)
Definition sorted (l : list Qc) : list Qc := fold_right insert_sorted [] l.

(** [float(val).is_integer()]: a canonical rational is an integer exactly
    when its denominator is 1. *)
Definition is_integer (val : Qc) : bool := Pos.eqb (Qden val) 1.

(* ================================================================== *)
(** ** Descriptive statistics (NumPy) *)

(** [np.mean(data)]: the sum over the count, [nan] on the empty list. *)
Definition np_mean (data : list Qc) : num :=
  ndiv (Fin (sum data)) (Fin (QcN (length data))).

(** [np.var(data, ddof=1)]: squared deviations from the mean, summed and
    divided by [max(n - ddof, 0)]. *)
Definition np_var (data : list Qc) : num :=
  let arrmean := np_mean data in
  let x := map (fun v => nsq (nsub (Fin v) arrmean)) data in
  let rcount := Z.max (Z.of_nat (length data) - 1) 0 in
  ndiv (nsum x) (Fin (QcZ rcount)).

(** The analyzer's own [mean] and [variance] are these two calls. *)
Definition mean (data : list Qc) : num := np_mean data.
Definition variance (data : list Qc) : num := np_var data.

(* ================================================================== *)
(** ** Type detection *)

Definition detect_data_type (data : list Qc) : DataType :=
  let unique_values := py_set data in
  if forallb (fun val => Qc_eqb val 0 || Qc_eqb val 1) unique_values then binary
  else if (length unique_values <=? 10)%nat && forallb is_integer unique_values
  then categorical
  else continuous.

Section Tests.

Context {L : NumLib}.

(** [np.std(data, ddof=1)]: the square root of the variance. *)
Definition standard_deviation (data : list Qc) : num := nsqrt (np_var data).

(* ================================================================== *)
(** ** Welch's t-test *)

(** The Welch-Satterthwaite expression of [welch_t_test], as written there. *)
Definition welch_df (var_a var_b : num) (n_a n_b : Z) : num :=
  ndiv (nsq (nadd (ndiv var_a (Fin (QcZ n_a))) (ndiv var_b (Fin (QcZ n_b)))))
       (nadd (ndiv (nsq (ndiv var_a (Fin (QcZ n_a)))) (Fin (QcZ (n_a - 1))))
             (ndiv (nsq (ndiv var_b (Fin (QcZ n_b)))) (Fin (QcZ (n_b - 1))))).

Definition welch_t_test (group_a group_b : list Qc) (alpha confidence_level : Qc)
  : outcome StatisticalResult :=
  let mean_a := np_mean group_a in
  let mean_b := np_mean group_b in
  let var_a := np_var group_a in
  let var_b := np_var group_b in
  let n_a := Z.of_nat (length group_a) in
  let n_b := Z.of_nat (length group_b) in
  let pooled_se :=
    nsqrt (nadd (ndiv var_a (Fin (QcZ n_a))) (ndiv var_b (Fin (QcZ n_b)))) in
  let t := ndiv (nsub mean_a mean_b) pooled_se in
  let df := welch_df var_a var_b n_a n_b in
  let p_value := nmul (Fin two) (nsub (Fin 1) (t_cdf (nabs t) df)) in
  let pooled_sd :=
    nsqrt (ndiv (nadd (nmul (Fin (QcZ (n_a - 1))) var_a)
                      (nmul (Fin (QcZ (n_b - 1))) var_b))
                (Fin (QcZ (n_a + n_b - 2)))) in
  let cohens_d := ndiv (nsub mean_a mean_b) pooled_sd in
  let t_critical := t_ppf (Fin (1 - (1 - confidence_level) / two)) df in
  let margin_of_error := nmul t_critical pooled_se in
  let diff := nsub mean_a mean_b in
  let is_significant := nlt p_value (Fin alpha) in
  Ok {| data_type := continuous;
        test_type := t_test;
        test_statistic := t;
        p_value := p_value;
        confidence_interval :=
          {| lower := nsub diff margin_of_error;
             upper := nadd diff margin_of_error |};
        effect_size := cohens_d;
        is_significant := is_significant;
        decision := decide_on is_significant;
        method := "Welch's Two-Sample t-Test" |}.

(* ================================================================== *)
(** ** Two-proportion z-test *)

(** The counts, sums and proportions are Python numbers: a division by a
    zero count raises.  From [np.sqrt] on, the values are [float64]. *)
Definition two_proportion_z_test (group_a group_b : list Qc)
    (alpha confidence_level : Qc) : outcome StatisticalResult :=
  let n_a := QcN (length group_a) in
  let n_b := QcN (length group_b) in
  let x_a := sum group_a in
  let x_b := sum group_b in
  p_a <- py_div x_a n_a ;;
  p_b <- py_div x_b n_b ;;
  p_pool <- py_div (x_a + x_b) (n_a + n_b) ;;
  inv_a <- py_div 1 n_a ;;
  inv_b <- py_div 1 n_b ;;
  let standard_error := nsqrt (Fin (p_pool * (1 - p_pool) * (inv_a + inv_b))) in
  let z := ndiv (Fin (p_a - p_b)) standard_error in
  let p_value := nmul (Fin two) (nsub (Fin 1) (norm_cdf (nabs z))) in
  let z_critical := norm_ppf (Fin (1 - (1 - confidence_level) / two)) in
  v_a <- py_div (p_a * (1 - p_a)) n_a ;;
  v_b <- py_div (p_b * (1 - p_b)) n_b ;;
  let se_diff := nsqrt (Fin (v_a + v_b)) in
  let diff := p_a - p_b in
  let margin_of_error := nmul z_critical se_diff in
  let is_significant := nlt p_value (Fin alpha) in
  Ok {| data_type := binary;
        test_type := z_test;
        test_statistic := z;
        p_value := p_value;
        confidence_interval :=
          {| lower := nsub (Fin diff) margin_of_error;
             upper := nadd (Fin diff) margin_of_error |};
        effect_size := Fin diff;
        is_significant := is_significant;
        decision := decide_on is_significant;
        method := "Two-Proportion Z-Test" |}.

(* ================================================================== *)
(** ** [scipy.stats.chi2_contingency] on an r x 2 table *)

(** A row of the table holds the two groups' counts of one value. *)
Definition Table : Type := list (nat * nat).
Definition Cells : Type := list (num * num).

Definition row_sums (observed : Table) : list nat :=
  map (fun row => (fst row + snd row)%nat) observed.
Definition col_sum_a (observed : Table) : nat :=
  fold_right Nat.add 0%nat (map fst observed).
Definition col_sum_b (observed : Table) : nat :=
  fold_right Nat.add 0%nat (map snd observed).
Definition table_total (observed : Table) : nat :=
  (col_sum_a observed + col_sum_b observed)%nat.

Definition as_cells (observed : Table) : Cells :=
  map (fun row => (Fin (QcN (fst row)), Fin (QcN (snd row)))) observed.

(** [expected_freq]: the product of the margins over the total. *)
Definition expected_freq (observed : Table) : Cells :=
  let total := Fin (QcN (table_total observed)) in
  map (fun r => (ndiv (Fin (QcN r * QcN (col_sum_a observed))) total,
                 ndiv (Fin (QcN r * QcN (col_sum_b observed))) total))
      (row_sums observed).

Definition cells_map2 (f : num -> num -> num) (xs ys : Cells) : Cells :=
  map (fun p => (f (fst (fst p)) (fst (snd p)), f (snd (fst p)) (snd (snd p))))
      (combine xs ys).

Definition cells_sum (xs : Cells) : num :=
  nsum (flat_map (fun c => [fst c; snd c]) xs).

(** Yates' correction for continuity: every observed count moves towards its
    expected value by [min(0.5, |expected - observed|)]. *)
Definition yates_cell (observed expected : num) : num :=
  let diff := nsub expected observed in
  let direction := nsign diff in
  let magnitude := nmin (Fin half) (nabs diff) in
  nadd observed (nmul magnitude direction).

(** [power_divergence] with its default [lambda_] (Pearson): the sum of
    [(f_obs - f_exp)**2 / f_exp] over the cells, and its chi-squared tail
    probability.  Its check that observed and expected totals agree always
    passes on what [chi2_contingency] hands it. *)
Definition pearson_cell (f_obs f_exp : num) : num :=
  ndiv (nsq (nsub f_obs f_exp)) f_exp.

Definition power_divergence (f_obs f_exp : Cells) (dof : Z) : num * num :=
  let stat := cells_sum (cells_map2 pearson_cell f_obs f_exp) in
  (stat, chi2_sf stat dof).

Definition has_zero (expected : Cells) : bool :=
  existsb (fun c => neqb (fst c) (Fin 0) || neqb (snd c) (Fin 0)) expected.

(** [chi2_contingency(observed)] as SciPy documents it, with its defaults,
    [correction=True] among them: an empty table and a zero expected
    frequency are errors, a table with [dof == 0] has statistic 0 and
    p-value 1, and Yates' correction is applied exactly when [dof == 1].
    Counts are never negative, so SciPy's check for negative entries is
    left out. *)
Definition chi2_contingency (observed : Table)
  : outcome (num * num * Z * Cells) :=
  match observed with
  | [] => Raise (ValueError "No data; observed has size 0.")
  | _ :: _ =>
    let expected := expected_freq observed in
    if has_zero expected
    then Raise (ValueError "The expected frequencies have a zero element.")
    else
      let size := (2 * Z.of_nat (length observed))%Z in
      let dof := (size - (Z.of_nat (length observed) + 2) + 2 - 1)%Z in
      if (dof =? 0)%Z then Ok (Fin 0, Fin 1, dof, expected)
      else
        let observed' :=
          if (dof =? 1)%Z
          then cells_map2 yates_cell (as_cells observed) expected
          else as_cells observed in
        let '(chi2, p) := power_divergence observed' expected dof in
        Ok (chi2, p, dof, expected)
  end.

(* ================================================================== *)
(** ** Chi-squared test *)

(** The table [chi_squared_test] builds before it calls SciPy: one row
    [[count_a, count_b]] per value of [sorted(list(set(group_a + group_b)))]. *)
Definition contingency_table_of (group_a group_b : list Qc) : Table :=
  let unique_values := sorted (py_set (group_a ++ group_b)) in
  map (fun value => (count group_a value, count group_b value)) unique_values.

Definition chi_squared_test (group_a group_b : list Qc)
    (alpha confidence_level : Qc) : outcome StatisticalResult :=
  let contingency_table := contingency_table_of group_a group_b in
  res <- chi2_contingency contingency_table ;;
  let '(chi2, p_value, dof, expected) := res in
  let total_n := (length group_a + length group_b)%nat in
  let effect_size := nsqrt (ndiv chi2 (Fin (QcN total_n))) in
  let is_significant := nlt p_value (Fin alpha) in
  Ok {| data_type := categorical;
        test_type := chi_squared;
        test_statistic := chi2;
        p_value := p_value;
        confidence_interval :=
          {| lower := Fin 0;
             upper := nmul effect_size (Fin two) |};
        effect_size := effect_size;
        is_significant := is_significant;
        decision := decide_on is_significant;
        method := "Chi-Squared Test of Independence" |}.

(* ================================================================== *)
(** ** The entry point *)

Definition analyze_data (inputs : StatisticalInputs) : outcome StatisticalResult :=
  let group_a := inputs.(group_a) in
  let group_b := inputs.(group_b) in
  let significance_level := inputs.(significance_level) in
  let confidence_level := inputs.(confidence_level) in
  let data_type_a := detect_data_type group_a in
  let data_type_b := detect_data_type group_b in
  let data_type :=
    if DataType_eqb data_type_a binary || DataType_eqb data_type_b binary
    then binary
    else if DataType_eqb data_type_a categorical
            || DataType_eqb data_type_b categorical
    then categorical
    else continuous in
  match data_type with
  | binary =>
      two_proportion_z_test group_a group_b significance_level confidence_level
  | categorical =>
      chi_squared_test group_a group_b significance_level confidence_level
  | continuous =>
      welch_t_test group_a group_b significance_level confidence_level
  end.

End Tests.

(* ================================================================== *)
(** ** The specification's vocabulary

    The predicates and formulas below follow the words of the specification;
    the theorems compare them with the definitions above. *)

(** Every value of the sample is 0 or 1. *)
Definition zero_or_one (data : list Qc) : Prop :=
  forall x, In x data -> x = 0 \/ x = 1.

(** The sample has exactly [n] distinct values. *)
Definition distinct_values (data : list Qc) (n : nat) : Prop :=
  exists l, NoDup l /\ (forall x, In x l <-> In x data) /\ length l = n.

Definition integral (x : Qc) : Prop := exists z : Z, x = QcZ z.

Definition all_integral (data : list Qc) : Prop :=
  forall x, In x data -> integral x.

Definition few_integers (data : list Qc) : Prop :=
  (exists n, distinct_values data n /\ (n <= 10)%nat) /\ all_integral data.

(** The dominance order Binary > Categorical > Continuous. *)
Definition dominance (t : DataType) : nat :=
  match t with
  | binary => 2
  | categorical => 1
  | continuous => 0
  end.

(** The more restrictive of two classifications. *)
Definition resolve (ta tb : DataType) : DataType :=
  if (dominance tb <=? dominance ta)%nat then ta else tb.

(** The test that goes with a data type. *)
Definition matching_test (t : DataType) : TestType :=
  match t with
  | binary => z_test
  | categorical => chi_squared
  | continuous => t_test
  end.

(** The arithmetic mean and the sample variance (denominator [n - 1]). *)
Definition sample_mean (data : list Qc) : Qc :=
  sum data / QcN (length data).

Definition sample_variance (data : list Qc) : Qc :=
  sum (map (fun v => (v - sample_mean data) ^ 2) data)
  / (QcN (length data) - 1).

(** The level [1 - (1 - c)/2] at which a two-sided critical value of
    confidence [c] is read. *)
Definition two_sided_level (c : Qc) : Qc := 1 - (1 - c) / two.

Section Formulas.

Context {L : NumLib}.

Variables A B : list Qc.

Let nA : Qc := QcN (length A).
Let nB : Qc := QcN (length B).
Let meanA : Qc := sample_mean A.
Let meanB : Qc := sample_mean B.
Let varA : Qc := sample_variance A.
Let varB : Qc := sample_variance B.

(** Welch: [sqrt(varA/nA + varB/nB)] and the statistic over it. *)
Definition welch_se : num := nsqrt (Fin (varA / nA + varB / nB)).

Definition welch_t : num := ndiv (Fin (meanA - meanB)) welch_se.

(** Welch-Satterthwaite degrees of freedom. *)
Definition welch_satterthwaite : num :=
  ndiv (Fin ((varA / nA + varB / nB) ^ 2))
       (Fin ((varA / nA) ^ 2 / (nA - 1) + (varB / nB) ^ 2 / (nB - 1))).

(** Two-tailed p-value [2 (1 - CDF_t(|t|, df))]. *)
Definition two_tailed_t (t df : num) : num :=
  nmul (Fin two) (nsub (Fin 1) (t_cdf (nabs t) df)).

Definition pooled_sd : num :=
  nsqrt (Fin (((nA - 1) * varA + (nB - 1) * varB) / (nA + nB - two))).

Definition cohens_d : num := ndiv (Fin (meanA - meanB)) pooled_sd.

Definition t_critical (df : num) (c : Qc) : num :=
  t_ppf (Fin (two_sided_level c)) df.

(** Proportions: [pA = sum(A)/nA], [pB = sum(B)/nB] and the pooled [p]. *)
Definition pA : Qc := sum A / nA.
Definition pB : Qc := sum B / nB.
Definition p_pooled : Qc := (sum A + sum B) / (nA + nB).

Definition pooled_se : num :=
  nsqrt (Fin (p_pooled * (1 - p_pooled) * (1 / nA + 1 / nB))).

Definition z_statistic : num := ndiv (Fin (pA - pB)) pooled_se.

Definition two_tailed_normal (z : num) : num :=
  nmul (Fin two) (nsub (Fin 1) (norm_cdf (nabs z))).

Definition unpooled_se : num :=
  nsqrt (Fin (pA * (1 - pA) / nA + pB * (1 - pB) / nB)).

Definition z_critical (c : Qc) : num := norm_ppf (Fin (two_sided_level c)).

End Formulas.

(** The sum of [f] over a list of values. *)
Definition total_of (f : Qc -> nat) (values : list Qc) : nat :=
  fold_right Nat.add 0%nat (map f values).

(** The contingency table in rational numbers: observed counts, and the
    expected counts [row total * column total / grand total]. *)
Definition QCells : Type := list (Qc * Qc).

Definition observed_counts (T : Table) : QCells :=
  map (fun row => (QcN (fst row), QcN (snd row))) T.

Definition expected_counts (T : Table) : QCells :=
  map (fun row =>
         (QcN (fst row + snd row) * QcN (col_sum_a T) / QcN (table_total T),
          QcN (fst row + snd row) * QcN (col_sum_b T) / QcN (table_total T)))
      T.

(** One cell's share [(O - E)^2 / E] of Pearson's statistic, and the sum of
    the shares over all cells. *)
Definition pearson_term (o e : Qc) : Qc := (o - e) ^ 2 / e.

Definition chi2_sum (obs expd : QCells) : Qc :=
  sum (flat_map (fun p => [pearson_term (fst (fst p)) (fst (snd p));
                           pearson_term (snd (fst p)) (snd (snd p))]%list)
                (combine obs expd)).

(** Pearson's statistic without correction. *)
Definition pearson_chi2 (T : Table) : Qc :=
  chi2_sum (observed_counts T) (expected_counts T).

Definition Qc_min (x y : Qc) : Qc := if Qc_leb x y then x else y.

Definition Qc_sign (x : Qc) : Qc :=
  match x ?= 0 with
  | Gt => 1
  | Lt => - (1)
  | Eq => 0
  end.

(** Yates' continuity correction: the observed count moved towards the
    expected one by [min(1/2, |E - O|)]. *)
Definition yates_adjust (o e : Qc) : Qc :=
  o + Qc_min half (Qcabs (e - o)) * Qc_sign (e - o).

Definition yates_counts (T : Table) : QCells :=
  map (fun p => (yates_adjust (fst (fst p)) (fst (snd p)),
                 yates_adjust (snd (fst p)) (snd (snd p))))
      (combine (observed_counts T) (expected_counts T)).

(** Pearson's statistic with Yates' correction. *)
Definition yates_chi2 (T : Table) : Qc :=
  chi2_sum (yates_counts T) (expected_counts T).

(** Rational cells as [float64] cells. *)
Definition fin_cells (xs : QCells) : Cells :=
  map (fun c => (Fin (fst c), Fin (snd c))) xs.

(** Every row and both columns of the table hold an observation. *)
Definition populated (T : Table) : Prop :=
  T <> []
  /\ Forall (fun row => (1 <= fst row + snd row)%nat) T
  /\ (1 <= col_sum_a T)%nat /\ (1 <= col_sum_b T)%nat.

(** What [chi2_contingency] reports on a table with [rows] rows: nothing to
    test on one row, Yates' correction on two, Pearson's plain statistic on
    three or more. *)
Definition chi2_value (T : Table) : Qc :=
  match length T with
  | 1%nat => 0
  | 2%nat => yates_chi2 T
  | _ => pearson_chi2 T
  end.

Definition chi2_p_value {L : NumLib} (T : Table) : num :=
  match length T with
  | 1%nat => Fin 1
  | _ => chi2_sf (Fin (chi2_value T)) (Z.of_nat (length T) - 1)
  end.

(** The result record of the z-test on two non-empty samples. *)
Definition z_test_result {L : NumLib} (a b : list Qc) (alpha c : Qc) : StatisticalResult :=
  let p := two_tailed_normal (z_statistic a b) in
  let margin := nmul (z_critical c) (unpooled_se a b) in
  {| data_type := binary;
     test_type := z_test;
     test_statistic := z_statistic a b;
     p_value := p;
     confidence_interval :=
       {| lower := nsub (Fin (pA a - pB b)) margin;
          upper := nadd (Fin (pA a - pB b)) margin |};
     effect_size := Fin (pA a - pB b);
     is_significant := nlt p (Fin alpha);
     decision := decide_on (nlt p (Fin alpha));
     method := "Two-Proportion Z-Test" |}.

(** The result record of the t-test on two samples of size at least 2. *)
Definition welch_result {L : NumLib} (a b : list Qc) (alpha c : Qc) : StatisticalResult :=
  let df := welch_satterthwaite a b in
  let p := two_tailed_t (welch_t a b) df in
  let centre := Fin (sample_mean a - sample_mean b) in
  let margin := nmul (t_critical df c) (welch_se a b) in
  {| data_type := continuous;
     test_type := t_test;
     test_statistic := welch_t a b;
     p_value := p;
     confidence_interval :=
       {| lower := nsub centre margin; upper := nadd centre margin |};
     effect_size := cohens_d a b;
     is_significant := nlt p (Fin alpha);
     decision := decide_on (nlt p (Fin alpha));
     method := "Welch's Two-Sample t-Test" |}.

(** The result record of the chi-squared test on two non-empty samples. *)
Definition chi_squared_result {L : NumLib} (a b : list Qc) (alpha : Qc)
  : StatisticalResult :=
  let T := contingency_table_of a b in
  let p := chi2_p_value T in
  let v := nsqrt (ndiv (Fin (chi2_value T)) (Fin (QcN (length a + length b)))) in
  {| data_type := categorical;
     test_type := chi_squared;
     test_statistic := Fin (chi2_value T);
     p_value := p;
     confidence_interval := {| lower := Fin 0; upper := nmul v (Fin two) |};
     effect_size := v;
     is_significant := nlt p (Fin alpha);
     decision := decide_on (nlt p (Fin alpha));
     method := "Chi-Squared Test of Independence" |}.

(** The test that is run for a resolved data type. *)
Definition run_test {L : NumLib} (t : DataType)
  : list Qc -> list Qc -> Qc -> Qc -> outcome StatisticalResult :=
  match t with
  | binary => two_proportion_z_test
  | categorical => chi_squared_test
  | continuous => welch_t_test
  end.

(** A level that is a probability strictly between 0 and 1. *)
Definition valid_level (x : Qc) : Prop := 0 < x /\ x < 1.

(* ================================================================== *)
(** ** Example inputs *)

Definition q (n : Z) (d : positive) : Qc := Q2Qc (n # d).

(** A concrete library, to run the definitions on examples: a square root
    rounded down to six decimals, and fixed answers for the distribution
    functions.  No theorem depends on it. *)
Definition sqrt_6dp (x : Qc) : Qc :=
  Q2Qc (Z.sqrt (Qnum x * 1000000000000 / Zpos (Qden x)) # 1000000).

Definition example_lib : NumLib :=
  {| np_sqrt := sqrt_6dp;
     t_cdf := fun _ _ => Fin half;
     t_ppf := fun _ _ => Fin two;
     norm_cdf := fun _ => Fin half;
     norm_ppf := fun _ => Fin two;
     chi2_sf := fun _ _ => Fin half |}.

(** Two categorical samples over the values 1 and 2. *)
Definition two_valued_a : list Qc := map QcZ [1; 1; 2]%Z.
Definition two_valued_b : list Qc := map QcZ [1; 2; 2]%Z.

(** Two categorical samples over the values 1, 2 and 3. *)
Definition three_valued_a : list Qc := map QcZ [1; 2; 3; 1; 2]%Z.
Definition three_valued_b : list Qc := map QcZ [3; 3; 3; 1; 1]%Z.

(** Two samples of five whole-number measurements each. *)
Definition measured_a : list Qc := map QcZ [10; 12; 11; 13; 9]%Z.
Definition measured_b : list Qc := map QcZ [15; 16; 14; 17; 15]%Z.

(** Two binary samples: 60 and 50 conversions out of 100. *)
Definition converted_a : list Qc := (repeat 1 60 ++ repeat 0 40)%list.
Definition converted_b : list Qc := (repeat 1 50 ++ repeat 0 50)%list.

(** A continuous comparison whose first group has a single observation. *)
Definition singleton_inputs : StatisticalInputs :=
  {| group_a := [q 5 2]%list;
     group_b := [q 3 2; q 37 10]%list;
     significance_level := q 5 100;
     power := q 8 10;
     confidence_level := q 95 100 |}.

(** A binary comparison with both levels outside (0,1). *)
Definition wild_level_inputs : StatisticalInputs :=
  {| group_a := map QcZ [1; 0]%Z;
     group_b := map QcZ [1; 1]%Z;
     significance_level := q 2 1;
     power := q 8 10;
     confidence_level := q 3 2 |}.

(* ================================================================== *)
(** ** Further vocabulary *)

(** The table with its two columns exchanged. *)
Definition swap_table (T : Table) : Table :=
  map (fun row => (snd row, fst row)) T.

(** The binary fraction [z / 2^k]. *)
Definition binary_fraction (z : Z) (k : nat) : Qc :=
  QcZ z / QcZ (2 ^ Z.of_nat k).

(** A result whose test goes with its data type, whose significance flag is
    the comparison of its p-value with the level, and whose decision follows
    the flag. *)
Definition well_formed (alpha : Qc) (r : StatisticalResult) : Prop :=
  test_type r = matching_test (data_type r)
  /\ is_significant r = nlt (p_value r) (Fin alpha)
  /\ (decision r = reject <-> is_significant r = true).


(* ================================================================== *)
(** ** The callers of the analyzer

    [convert_ab_test_data_to_analyzer_format], [calculate_continuous_metrics],
    [analyze_dynamic_ab_test] and [perform_dynamic_check] work on Python
    dictionaries with values of any type, and can fail in more ways than the
    tests themselves. *)

Open Scope string_scope.

(** The values a variant's dictionary holds. *)
Inductive pyval : Type :=
| PyNone
| PyInt (z : Z)
| PyFloat (x : Qc)
| PyList (l : list Qc).

(** A dictionary: the first binding of a key is the key's value. *)
Definition dict (V : Type) : Type := list (string * V).

Fixpoint dict_get {V : Type} (d : dict V) (key : string) : option V :=
  match d with
  | [] => None
  | (k, v) :: rest => if String.eqb k key then Some v else dict_get rest key
  end.

(** [key in d]. *)
Definition dict_has {V : Type} (d : dict V) (key : string) : bool :=
  match dict_get d key with Some _ => true | None => false end.

Inductive py_exn : Type :=
| Analyzer (e : exn)
| KeyError (key : string)
| TypeError
| OverflowError.

Inductive attempt (A : Type) : Type :=
| Done (a : A)
| Fail (e : py_exn).

Arguments Done {A} a.
Arguments Fail {A} e.

Definition attempt_bind {A B : Type} (m : attempt A) (k : A -> attempt B)
  : attempt B :=
  match m with
  | Done a => k a
  | Fail e => Fail e
  end.

Notation "x <~ m ;; k" := (attempt_bind m (fun x => k))
  (at level 61, m at next level, right associativity).

(** An analyzer outcome as a caller sees it. *)
Definition lift {A : Type} (m : outcome A) : attempt A :=
  match m with
  | Ok a => Done a
  | Raise e => Fail (Analyzer e)
  end.

(** [d[key]]. *)
Definition item {V : Type} (d : dict V) (key : string) : attempt V :=
  match dict_get d key with
  | Some v => Done v
  | None => Fail (KeyError key)
  end.

(** [d.get(key)]. *)
Definition get_or_none (d : dict pyval) (key : string) : pyval :=
  match dict_get d key with
  | Some v => v
  | None => PyNone
  end.

(** [[x] * n]: [n] copies for an integer [n] (none when [n <= 0]), a
    [TypeError] for anything else. *)
Definition py_repeat (x : Qc) (n : pyval) : attempt (list Qc) :=
  match n with
  | PyInt z => Done (repeat x (Z.to_nat z))
  | _ => Fail TypeError
  end.

(** [x - y] on dictionary values. *)
Definition py_sub (x y : pyval) : attempt pyval :=
  match x, y with
  | PyInt a, PyInt b => Done (PyInt (a - b))
  | PyInt a, PyFloat b => Done (PyFloat (QcZ a - b))
  | PyFloat a, PyInt b => Done (PyFloat (a - QcZ b))
  | PyFloat a, PyFloat b => Done (PyFloat (a - b))
  | _, _ => Fail TypeError
  end.

(** [[1] * d['conversions'] + [0] * (d['total_users'] - d['conversions'])]. *)
Definition expand_conversions (d : dict pyval) : attempt (list Qc) :=
  c <~ item d "conversions" ;;
  ones <~ py_repeat 1 c ;;
  t <~ item d "total_users" ;;
  c' <~ item d "conversions" ;;
  rest <~ py_sub t c' ;;
  zeros <~ py_repeat 0 rest ;;
  Done (ones ++ zeros)%list.

(** The returned dictionary [{'group_a': ..., 'group_b': ...}] as a pair. *)
Definition convert_ab_test_data_to_analyzer_format
    (group_a_data group_b_data : dict pyval) : attempt (pyval * pyval) :=
  if dict_has group_a_data "continuous_values"
     && dict_has group_b_data "continuous_values"
  then
    a <~ item group_a_data "continuous_values" ;;
    b <~ item group_b_data "continuous_values" ;;
    Done (a, b)
  else
    group_a <~ expand_conversions group_a_data ;;
    group_b <~ expand_conversions group_b_data ;;
    Done (PyList group_a, PyList group_b).

(** The dictionary of [calculate_continuous_metrics]. *)
Record ContinuousMetrics : Type := {
  metrics_mean : num;
  metrics_standard_deviation : num;
  metrics_min : Qc;
  metrics_max : Qc;
  metrics_median : num;
  metrics_count : nat
}.

(** [np.median] on a non-empty list: the mean of the middle element, or of
    the two middle elements, of the sorted data. *)
Definition np_median (data : list Qc) : num :=
  let n := length data in
  let index := (n / 2)%nat in
  let middle :=
    if Nat.odd n then firstn 1 (skipn index (sorted data))
    else firstn 2 (skipn (index - 1) (sorted data)) in
  np_mean middle.

Section Callers.

Context {L : NumLib}.

Definition calculate_continuous_metrics (data : list Qc) : ContinuousMetrics :=
  match data with
  | [] =>
      {| metrics_mean := Fin 0; metrics_standard_deviation := Fin 0;
         metrics_min := 0; metrics_max := 0;
         metrics_median := Fin 0; metrics_count := 0 |}
  | _ :: _ =>
      let sorted_data := sorted data in
      let mean_val := np_mean data in
      let std_dev := nsqrt (np_var data) in
      {| metrics_mean := mean_val;
         metrics_standard_deviation := std_dev;
         metrics_min := hd 0 sorted_data;
         metrics_max := last sorted_data 0;
         metrics_median := np_median data;
         metrics_count := length data |}
  end.

(** The result dictionary: the fields of the base result, and
    ['continuous_metrics'] for both groups when it is there. *)
Record DynamicResult : Type := {
  base_result : StatisticalResult;
  continuous_metrics : option (ContinuousMetrics * ContinuousMetrics)
}.

Definition analyze_dynamic_ab_test (inputs : StatisticalInputs)
  : outcome DynamicResult :=
  base_result <- analyze_data inputs ;;
  if DataType_eqb (data_type base_result) continuous
  then Ok {| base_result := base_result;
             continuous_metrics :=
               Some (calculate_continuous_metrics (group_a inputs),
                     calculate_continuous_metrics (group_b inputs)) |}
  else Ok {| base_result := base_result; continuous_metrics := None |}.

(** What the analyzer makes of a group that is not a list: [set(...)] in
    [detect_data_type] raises [TypeError]. *)
Definition as_sample (v : pyval) : attempt (list Qc) :=
  match v with
  | PyList l => Done l
  | _ => Fail TypeError
  end.

Definition perform_dynamic_check (variants : list (dict pyval))
    (params : dict Qc) : attempt DynamicResult :=
  if (length variants <? 2)%nat
  then Fail (Analyzer (ValueError "Need at least 2 variants for comparison"))
  else
    let control := nth 0 variants [] in
    let variant := nth 1 variants [] in
    c_conversions <~ item control "conversions" ;;
    c_visitors <~ item control "visitors" ;;
    v_conversions <~ item variant "conversions" ;;
    v_visitors <~ item variant "visitors" ;;
    data <~ convert_ab_test_data_to_analyzer_format
              [("conversions", c_conversions); ("total_users", c_visitors);
               ("continuous_values", get_or_none control "continuous_values")]
              [("conversions", v_conversions); ("total_users", v_visitors);
               ("continuous_values", get_or_none variant "continuous_values")] ;;
    significance_level <~ item params "significance_level" ;;
    power <~ item params "power" ;;
    confidence_level <~ item params "confidence_level" ;;
    group_a <~ as_sample (fst data) ;;
    group_b <~ as_sample (snd data) ;;
    lift (analyze_dynamic_ab_test
            {| group_a := group_a; group_b := group_b;
               significance_level := significance_level;
               power := power;
               confidence_level := confidence_level |}).

End Callers.

Close Scope string_scope.

(* ================================================================== *)
(** ** [src/lib/statistics.py]: planning and summary functions *)

(** [np.ceil]. *)
Definition np_ceil (x : num) : num :=
  match x with
  | Fin a => Fin (QcZ (Qceiling a))
  | _ => x
  end.

(** [int(x)] of a float: truncation towards zero; an infinity is an
    [OverflowError] and [nan] a [ValueError]. *)
Definition py_int (x : num) : attempt Z :=
  match x with
  | Fin a => Done (if Qc_ltb a 0 then Qceiling a else Qfloor a)
  | PInf | NInf => Fail OverflowError
  | NaN => Fail (Analyzer (ValueError "cannot convert float NaN to integer"))
  end.


Module Statistics.

Record ZTestSummary : Type := {
  sample_size : Z;
  p_value : num;
  confidence_interval : Interval;
  uplift : Qc;
  is_significant : bool
}.

Section Functions.

Context {L : NumLib}.

Open Scope string_scope.

Definition calculate_sample_size (p1 p2 alpha beta : Qc) (tail_type : string)
  : attempt Z :=
  let z_alpha :=
    if String.eqb tail_type "two-tailed"
    then norm_ppf (Fin (1 - alpha / two))
    else norm_ppf (Fin (1 - alpha)) in
  let z_beta := norm_ppf (Fin (1 - beta)) in
  let pooled_p := (p1 + p2) / two in
  let effect := Qcabs (p2 - p1) in
  let numerator :=
    nsq (nadd (nmul z_alpha (nsqrt (Fin (two * pooled_p * (1 - pooled_p)))))
              (nmul z_beta (nsqrt (Fin (p1 * (1 - p1) + p2 * (1 - p2)))))) in
  let denominator := effect ^ 2 in
  py_int (np_ceil (ndiv numerator (Fin denominator))).

Definition calculate_test_duration (sample_size traffic_per_day : Z)
  : attempt Z :=
  per_day <~ lift (py_div (QcZ (sample_size * 2)) (QcZ traffic_per_day)) ;;
  py_int (np_ceil (Fin per_day)).

Definition two_proportion_z_test (x1 n1 x2 n2 : Z) (tail_type : string)
  : outcome ZTestSummary :=
  p1 <- py_div (QcZ x1) (QcZ n1) ;;
  p2 <- py_div (QcZ x2) (QcZ n2) ;;
  p_pool <- py_div (QcZ (x1 + x2)) (QcZ (n1 + n2)) ;;
  inv1 <- py_div 1 (QcZ n1) ;;
  inv2 <- py_div 1 (QcZ n2) ;;
  let standard_error := nsqrt (Fin (p_pool * (1 - p_pool) * (inv1 + inv2))) in
  let z_score := ndiv (Fin (p2 - p1)) standard_error in
  let p_value :=
    if String.eqb tail_type "two-tailed"
    then nmul (Fin two) (nsub (Fin 1) (norm_cdf (nabs z_score)))
    else nsub (Fin 1) (norm_cdf z_score) in
  v1 <- py_div (p1 * (1 - p1)) (QcZ n1) ;;
  v2 <- py_div (p2 * (1 - p2)) (QcZ n2) ;;
  let se_diff := nsqrt (Fin (v1 + v2)) in
  let margin_of_error := nmul (Fin (q 196 100)) se_diff in
  let diff := p2 - p1 in
  let uplift := if Qc_eqb p1 0 then 0 else (p2 - p1) / p1 * QcZ 100 in
  Ok {| sample_size := (n1 + n2)%Z;
        p_value := p_value;
        confidence_interval :=
          {| lower := nsub (Fin diff) margin_of_error;
             upper := nadd (Fin diff) margin_of_error |};
        uplift := uplift;
        is_significant := nlt p_value (Fin (q 5 100)) |}.


Close Scope string_scope.

End Functions.

End Statistics.

(* ================================================================== *)
(** ** Example dictionaries *)

Open Scope string_scope.

Definition counts_50_of_100 : dict pyval :=
  [("conversions", PyInt 50); ("total_users", PyInt 100)]%list.
Definition counts_missing : dict pyval :=
  [("total_users", PyInt 100)]%list.

(** Variants as [perform_dynamic_check] reads them: with counts only, and
    with measured values besides. *)
Definition control_counts : dict pyval :=
  [("conversions", PyInt 60); ("visitors", PyInt 100)]%list.
Definition treatment_counts : dict pyval :=
  [("conversions", PyInt 50); ("visitors", PyInt 100)]%list.
Definition control_measured : dict pyval :=
  [("conversions", PyInt 0); ("visitors", PyInt 5);
   ("continuous_values", PyList measured_a)]%list.
Definition treatment_measured : dict pyval :=
  [("conversions", PyInt 0); ("visitors", PyInt 5);
   ("continuous_values", PyList measured_b)]%list.

Definition usual_params : dict Qc :=
  [("significance_level", q 5 100); ("power", q 8 10);
   ("confidence_level", q 95 100)]%list.

Close Scope string_scope.

(* ================================================================== *)
(** ** Rationals: booleans against propositions *)

Lemma Qc_eqb_eq (x y : Qc) : Qc_eqb x y = true <-> x = y.
Proof.
  unfold Qc_eqb. rewrite Qeq_bool_iff. split.
  - apply Qc_is_canon.
  - intros ->. reflexivity.
Qed.

Lemma Qc_eqb_refl (x : Qc) : Qc_eqb x x = true.
Proof. now apply Qc_eqb_eq. Qed.

Lemma Qc_eqb_neq (x y : Qc) : Qc_eqb x y = false <-> x <> y.
Proof.
  rewrite <- Qc_eqb_eq. destruct (Qc_eqb x y); split; congruence.
Qed.


Lemma Qc_leb_le (x y : Qc) : Qc_leb x y = true <-> x <= y.
Proof.
  unfold Qc_leb. rewrite Qcle_alt. destruct (x ?= y); split; congruence.
Qed.


Lemma QcZ_this (z : Z) : this (QcZ z) = inject_Z z.
Proof.
  unfold QcZ, Q2Qc, this. apply Qred_identity. simpl. apply Z.gcd_1_r.
Qed.

Lemma QcZ_inj (x y : Z) : QcZ x = QcZ y -> x = y.
Proof.
  intros H. apply (f_equal this) in H. rewrite !QcZ_this in H.
  now injection H.
Qed.

Lemma QcZ_add (x y : Z) : QcZ (x + y) = QcZ x + QcZ y.
Proof.
  apply Qc_is_canon.
  change (this (QcZ x + QcZ y)) with (Qred (QcZ x + QcZ y)).
  rewrite Qred_correct, !QcZ_this, inject_Z_plus. reflexivity.
Qed.

Lemma QcZ_mul (x y : Z) : QcZ (x * y) = QcZ x * QcZ y.
Proof.
  apply Qc_is_canon.
  change (this (QcZ x * QcZ y)) with (Qred (QcZ x * QcZ y)).
  rewrite Qred_correct, !QcZ_this, inject_Z_mult. reflexivity.
Qed.

Lemma QcZ_le (x y : Z) : (x <= y)%Z <-> QcZ x <= QcZ y.
Proof.
  unfold Qcle. rewrite !QcZ_this, Zle_Qle. reflexivity.
Qed.

Lemma QcZ_lt (x y : Z) : (x < y)%Z <-> QcZ x < QcZ y.
Proof.
  unfold Qclt. rewrite !QcZ_this, Zlt_Qlt. reflexivity.
Qed.

Lemma QcZ_0 : QcZ 0 = 0.
Proof. reflexivity. Qed.

Lemma QcZ_1 : QcZ 1 = 1.
Proof. reflexivity. Qed.

Lemma QcZ_eq_0 (z : Z) : QcZ z = 0 <-> z = 0%Z.
Proof.
  split.
  - intros H. apply QcZ_inj. now rewrite QcZ_0.
  - now intros ->.
Qed.

Lemma QcN_Z (n : nat) : QcN n = QcZ (Z.of_nat n).
Proof. reflexivity. Qed.

Lemma QcN_eq_0 (n : nat) : QcN n = 0 <-> n = 0%nat.
Proof. rewrite QcN_Z, QcZ_eq_0. split; intros H; [now apply Nat2Z.inj | now subst]. Qed.

Lemma QcN_add (n m : nat) : QcN (n + m) = QcN n + QcN m.
Proof. now rewrite !QcN_Z, Nat2Z.inj_add, QcZ_add. Qed.

Lemma QcN_mul (n m : nat) : QcN (n * m) = QcN n * QcN m.
Proof. now rewrite !QcN_Z, Nat2Z.inj_mul, QcZ_mul. Qed.

Lemma QcN_nonneg (n : nat) : 0 <= QcN n.
Proof. rewrite QcN_Z, <- QcZ_0. apply (proj1 (QcZ_le _ _)). lia. Qed.

Lemma QcN_pos (n : nat) : (0 < n)%nat -> 0 < QcN n.
Proof. intros H. rewrite QcN_Z, <- QcZ_0. apply (proj1 (QcZ_lt _ _)). lia. Qed.

Lemma is_integer_spec (q : Qc) : is_integer q = true <-> integral q.
Proof.
  unfold is_integer, integral. rewrite Pos.eqb_eq. split.
  - intros H. exists (Qnum q). apply Qc_decomp. rewrite QcZ_this.
    destruct q as [[n d] c]. simpl in *. subst d. reflexivity.
  - intros [z ->]. rewrite QcZ_this. reflexivity.
Qed.

(* ================================================================== *)
(** ** Python list helpers *)

Lemma mem_In (x : Qc) (l : list Qc) : mem x l = true <-> In x l.
Proof.
  unfold mem. rewrite existsb_exists. split.
  - intros [y [Hy E]]. apply Qc_eqb_eq in E. now subst.
  - intros H. exists x. split; [assumption | apply Qc_eqb_refl].
Qed.

Lemma py_set_In (x : Qc) (data : list Qc) : In x (py_set data) <-> In x data.
Proof.
  induction data as [| y rest IH]; simpl; [reflexivity |].
  destruct (mem y rest) eqn:E.
  - rewrite IH. apply mem_In in E. split; [tauto |].
    intros [-> | H]; assumption.
  - simpl. rewrite IH. reflexivity.
Qed.

Lemma py_set_NoDup (data : list Qc) : NoDup (py_set data).
Proof.
  induction data as [| y rest IH]; simpl; [constructor |].
  destruct (mem y rest) eqn:E; [assumption |].
  constructor; [| assumption].
  rewrite py_set_In, <- mem_In. congruence.
Qed.

Lemma py_set_distinct (data : list Qc) :
  distinct_values data (length (py_set data)).
Proof.
  exists (py_set data). split; [apply py_set_NoDup |].
  split; [intros x; apply py_set_In | reflexivity].
Qed.

Lemma distinct_values_unique (data : list Qc) (n m : nat) :
  distinct_values data n -> distinct_values data m -> n = m.
Proof.
  intros [l [Hl [Il <-]]] [k [Hk [Ik <-]]].
  apply Nat.le_antisymm; apply NoDup_incl_length; trivial;
    intros x Hx; [apply Ik, Il | apply Il, Ik]; assumption.
Qed.

Lemma forallb_py_set (f : Qc -> bool) (data : list Qc) :
  forallb f (py_set data) = true <-> forall x, In x data -> f x = true.
Proof.
  rewrite forallb_forall. split; intros H x Hx; apply H;
    now apply py_set_In.
Qed.

(* ================================================================== *)
(** ** Type detection *)

Lemma binary_check_spec (data : list Qc) :
  forallb (fun val => Qc_eqb val 0 || Qc_eqb val 1) (py_set data) = true
  <-> zero_or_one data.
Proof.
  rewrite forallb_py_set. unfold zero_or_one.
  split; intros H x Hx; specialize (H x Hx).
  - apply orb_true_iff in H. now rewrite !Qc_eqb_eq in H.
  - apply orb_true_iff. now rewrite !Qc_eqb_eq.
Qed.

Lemma categorical_check_spec (data : list Qc) :
  (length (py_set data) <=? 10)%nat && forallb is_integer (py_set data) = true
  <-> few_integers data.
Proof.
  rewrite andb_true_iff, Nat.leb_le, forallb_py_set. unfold few_integers.
  split; intros [H1 H2].
  - split.
    + exists (length (py_set data)). split; [apply py_set_distinct | assumption].
    + intros x Hx. apply is_integer_spec. now apply H2.
  - split.
    + destruct H1 as [n [Hn Hle]].
      now rewrite (distinct_values_unique (py_set_distinct data) Hn).
    + intros x Hx. apply is_integer_spec. now apply H2.
Qed.

Lemma detect_binary (data : list Qc) :
  detect_data_type data = binary <-> zero_or_one data.
Proof.
  rewrite <- binary_check_spec. unfold detect_data_type.
  destruct (forallb _ (py_set data)); [tauto |].
  destruct (_ && _); intuition congruence.
Qed.

Lemma detect_categorical (data : list Qc) :
  detect_data_type data = categorical
  <-> ~ zero_or_one data /\ few_integers data.
Proof.
  rewrite <- binary_check_spec, <- categorical_check_spec.
  unfold detect_data_type.
  destruct (forallb _ (py_set data)); destruct (_ && _); intuition congruence.
Qed.

Lemma detect_continuous (data : list Qc) :
  detect_data_type data = continuous
  <-> ~ zero_or_one data /\ ~ few_integers data.
Proof.
  rewrite <- binary_check_spec, <- categorical_check_spec.
  unfold detect_data_type.
  destruct (forallb _ (py_set data)); destruct (_ && _); intuition congruence.
Qed.

Lemma py_set_repeat (x : Qc) (n : nat) : py_set (repeat x (S n)) = [x]%list.
Proof.
  induction n as [| n IH]; [reflexivity |].
  change (repeat x (S (S n))) with (x :: repeat x (S n)).
  cbn [py_set]. rewrite IH.
  replace (mem x (repeat x (S n))) with true; [reflexivity |].
  symmetry. apply mem_In. now left.
Qed.

(** C7.  [detect_data_type] answers binary exactly when every value is 0 or
    1, categorical exactly when the sample is not binary, has at most 10
    distinct values and only integral values, and continuous in every other
    case; a sample made of one repeated integer other than 0 and 1 (all 5s)
    is categorical. *)
Theorem detect_data_type_classifies :
  (forall data,
      (detect_data_type data = binary <-> zero_or_one data)
      /\ (detect_data_type data = categorical
          <-> ~ zero_or_one data /\ few_integers data)
      /\ (detect_data_type data = continuous
          <-> ~ zero_or_one data /\ ~ few_integers data))
  /\ (forall n, detect_data_type (repeat (QcZ 5) (S n)) = categorical).
Proof.
  split.
  - intros data. split; [apply detect_binary |].
    split; [apply detect_categorical | apply detect_continuous].
  - intros n. unfold detect_data_type. rewrite py_set_repeat. reflexivity.
Qed.

(* ================================================================== *)
(** ** Arithmetic on [num] *)

Lemma ndiv_Fin (a b : Qc) : b <> 0 -> ndiv (Fin a) (Fin b) = Fin (a / b).
Proof.
  intros H. unfold ndiv. apply Qc_eqb_neq in H. now rewrite H.
Qed.

Lemma py_div_Ok (a b : Qc) : b <> 0 -> py_div a b = Ok (a / b).
Proof.
  intros H. unfold py_div. apply Qc_eqb_neq in H. now rewrite H.
Qed.

Lemma py_div_zero (a : Qc) : py_div a 0 = Raise ZeroDivisionError.
Proof. reflexivity. Qed.

Lemma nadd_comm (x y : num) : nadd x y = nadd y x.
Proof.
  destruct x, y; simpl; trivial. now rewrite Qcplus_comm.
Qed.

Lemma nneg_nsub (x y : num) : nneg (nsub x y) = nsub y x.
Proof.
  destruct x, y; simpl; trivial. f_equal. ring.
Qed.

Lemma Qcopp_pos (a : Qc) : a < 0 -> 0 < - a.
Proof.
  intros H. apply Qclt_minus_iff in H. now rewrite Qcplus_0_l in H.
Qed.

Lemma Qcopp_neg (a : Qc) : 0 < a -> - a < 0.
Proof.
  intros H. apply Qclt_minus_iff.
  replace (0 + - - a) with a by ring. assumption.
Qed.

Lemma inf_signed_pos (a : Qc) : 0 < a -> inf_signed a = PInf.
Proof.
  intros H. unfold inf_signed.
  assert (E : (a ?= 0) = Gt) by now apply Qcgt_alt.
  now rewrite E.
Qed.

Lemma inf_signed_neg (a : Qc) : a < 0 -> inf_signed a = NInf.
Proof.
  intros H. unfold inf_signed.
  assert (E : (a ?= 0) = Lt) by now apply Qclt_alt.
  now rewrite E.
Qed.

Lemma inf_signed_zero : inf_signed 0 = NaN.
Proof. reflexivity. Qed.

Lemma inf_signed_opp (a : Qc) : inf_signed (- a) = nneg (inf_signed a).
Proof.
  destruct (Qc_dec a 0) as [[H | H] | ->].
  - now rewrite (inf_signed_neg H), (inf_signed_pos (Qcopp_pos H)).
  - now rewrite (inf_signed_pos H), (inf_signed_neg (Qcopp_neg H)).
  - reflexivity.
Qed.

Lemma ndiv_nneg (x y : num) : ndiv (nneg x) y = nneg (ndiv x y).
Proof.
  destruct x as [a | | |], y as [b | | |]; simpl; trivial;
    try (now destruct (Qc_ltb b 0)); try (f_equal; ring).
  destruct (Qc_eqb b 0) eqn:E.
  - apply inf_signed_opp.
  - apply Qc_eqb_neq in E. simpl. f_equal. now field.
Qed.

Lemma nabs_nneg (x : num) : nabs (nneg x) = nabs x.
Proof.
  destruct x; simpl; trivial. now rewrite Qcabs_opp.
Qed.

Lemma nsum_Fin_from (l : list Qc) (acc : Qc) :
  fold_left nadd (map Fin l) (Fin acc) = Fin (fold_left Qcplus l acc).
Proof.
  revert acc. induction l as [| x l IH]; intros acc; simpl; [reflexivity |].
  apply IH.
Qed.

Lemma nsum_Fin (l : list Qc) : nsum (map Fin l) = Fin (sum l).
Proof. apply nsum_Fin_from. Qed.

Lemma Qc_sq (x : Qc) : x * x = x ^ 2.
Proof. simpl. ring. Qed.

(* ================================================================== *)
(** ** Two-proportion z-test *)

Section ZTest.

Context {L : NumLib}.

Lemma length_QcN_nonzero (data : list Qc) : data <> [] -> QcN (length data) <> 0.
Proof.
  intros H E. apply QcN_eq_0 in E. now destruct data.
Qed.

Lemma length_QcN_sum_nonzero (a b : list Qc) :
  a <> [] -> QcN (length a) + QcN (length b) <> 0.
Proof.
  intros H E. rewrite <- QcN_add in E. apply QcN_eq_0 in E.
  destruct a; [congruence | discriminate].
Qed.

Lemma two_proportion_z_test_nonempty (a b : list Qc) (alpha c : Qc) :
  a <> [] -> b <> [] ->
  two_proportion_z_test a b alpha c = Ok (z_test_result a b alpha c).
Proof.
  intros Ha Hb. unfold two_proportion_z_test.
  pose proof (length_QcN_nonzero Ha) as Na.
  pose proof (length_QcN_nonzero Hb) as Nb.
  pose proof (length_QcN_sum_nonzero b Ha) as Nab.
  rewrite !(py_div_Ok _ Na). cbn [bind].
  rewrite !(py_div_Ok _ Nb). cbn [bind].
  rewrite (py_div_Ok _ Nab). cbn [bind].
  rewrite !(py_div_Ok _ Na). cbn [bind].
  rewrite !(py_div_Ok _ Nb). cbn [bind].
  reflexivity.
Qed.

Lemma two_proportion_z_test_empty (a b : list Qc) (alpha c : Qc) :
  a = [] \/ b = [] ->
  two_proportion_z_test a b alpha c = Raise ZeroDivisionError.
Proof.
  intros [-> | ->]; [reflexivity |].
  destruct a as [| x a]; [reflexivity |].
  unfold two_proportion_z_test.
  rewrite py_div_Ok by (apply length_QcN_nonzero; discriminate).
  reflexivity.
Qed.

(** C4.  On two non-empty samples the z-test returns the pooled statistic
    [(pA - pB) / sqrt(p (1 - p) (1/nA + 1/nB))] with [p] the pooled
    proportion, its two-tailed normal p-value, the interval
    [pA - pB -/+ z_critical * sqrt(pA(1-pA)/nA + pB(1-pB)/nB)] built on the
    unpooled standard error, and the raw difference [pA - pB] as effect
    size. *)
Theorem z_test_formulas (a b : list Qc) (alpha c : Qc) :
  a <> [] -> b <> [] ->
  exists r,
    two_proportion_z_test a b alpha c = Ok r
    /\ test_statistic r
       = ndiv (Fin (pA a - pB b))
              (nsqrt (Fin (p_pooled a b * (1 - p_pooled a b)
                           * (1 / QcN (length a) + 1 / QcN (length b)))))
    /\ p_pooled a b = (sum a + sum b) / (QcN (length a) + QcN (length b))
    /\ p_value r = two_tailed_normal (test_statistic r)
    /\ lower (confidence_interval r)
       = nsub (Fin (pA a - pB b)) (nmul (z_critical c) (unpooled_se a b))
    /\ upper (confidence_interval r)
       = nadd (Fin (pA a - pB b)) (nmul (z_critical c) (unpooled_se a b))
    /\ unpooled_se a b
       = nsqrt (Fin (pA a * (1 - pA a) / QcN (length a)
                     + pB b * (1 - pB b) / QcN (length b)))
    /\ effect_size r = Fin (pA a - pB b).
Proof.
  intros Ha Hb. exists (z_test_result a b alpha c).
  split; [now apply two_proportion_z_test_nonempty |].
  repeat split.
Qed.

End ZTest.

(* ================================================================== *)
(** ** Welch's t-test *)

Lemma QcZ_opp (x : Z) : QcZ (- x) = - QcZ x.
Proof.
  apply Qc_is_canon.
  change (this (- QcZ x)) with (Qred (- QcZ x)).
  rewrite Qred_correct, !QcZ_this. reflexivity.
Qed.

Lemma QcZ_sub (x y : Z) : QcZ (x - y) = QcZ x - QcZ y.
Proof.
  unfold Z.sub, Qcminus. now rewrite QcZ_add, QcZ_opp.
Qed.

Lemma np_mean_Fin (data : list Qc) :
  data <> [] -> np_mean data = Fin (sample_mean data).
Proof.
  intros H. unfold np_mean, sample_mean.
  now rewrite ndiv_Fin by now apply length_QcN_nonzero.
Qed.

Lemma rcount_QcN (n : nat) :
  (1 <= n)%nat -> QcZ (Z.max (Z.of_nat n - 1) 0) = QcN n - 1.
Proof.
  intros H. rewrite Z.max_l by lia. now rewrite QcZ_sub.
Qed.

Lemma QcN_pred_nonzero (n : nat) : (2 <= n)%nat -> QcN n - 1 <> 0.
Proof.
  intros H E. rewrite QcN_Z, <- QcZ_1, <- QcZ_sub in E.
  apply QcZ_eq_0 in E. lia.
Qed.

Lemma np_var_Fin (data : list Qc) :
  (2 <= length data)%nat -> np_var data = Fin (sample_variance data).
Proof.
  intros H. unfold np_var, sample_variance.
  rewrite np_mean_Fin by (destruct data; [simpl in H; lia | discriminate]).
  rewrite rcount_QcN by lia.
  rewrite (map_ext _ (fun v => Fin ((v - sample_mean data) ^ 2))).
  - rewrite <- (map_map (fun v => (v - sample_mean data) ^ 2) Fin).
    rewrite nsum_Fin. now rewrite ndiv_Fin by now apply QcN_pred_nonzero.
  - intros v. unfold nsq. cbn [nsub nneg nadd nmul]. now rewrite Qc_sq.
Qed.

Section Welch.

Context {L : NumLib}.

Lemma welch_df_Fin (a b : list Qc) :
  (2 <= length a)%nat -> (2 <= length b)%nat ->
  welch_df (Fin (sample_variance a)) (Fin (sample_variance b))
           (Z.of_nat (length a)) (Z.of_nat (length b))
  = welch_satterthwaite a b.
Proof.
  intros Ha Hb. unfold welch_df, welch_satterthwaite.
  rewrite !QcZ_sub, QcZ_1, <- !QcN_Z.
  assert (Na : QcN (length a) <> 0) by (rewrite QcN_eq_0; lia).
  assert (Nb : QcN (length b) <> 0) by (rewrite QcN_eq_0; lia).
  rewrite !(ndiv_Fin _ Na), !(ndiv_Fin _ Nb).
  unfold nsq. cbn [nmul nadd].
  rewrite !(ndiv_Fin _ (QcN_pred_nonzero Ha)).
  rewrite !(ndiv_Fin _ (QcN_pred_nonzero Hb)).
  cbn [nadd]. now rewrite !Qc_sq.
Qed.

Lemma welch_t_test_Fin (a b : list Qc) (alpha c : Qc) :
  (2 <= length a)%nat -> (2 <= length b)%nat ->
  welch_t_test a b alpha c = Ok (welch_result a b alpha c).
Proof.
  intros Ha Hb. unfold welch_t_test.
  assert (Ea : a <> []) by (destruct a; [simpl in Ha; lia | discriminate]).
  assert (Eb : b <> []) by (destruct b; [simpl in Hb; lia | discriminate]).
  rewrite (np_mean_Fin Ea), (np_mean_Fin Eb).
  rewrite (np_var_Fin a Ha), (np_var_Fin b Hb).
  rewrite welch_df_Fin by assumption.
  assert (Na : QcN (length a) <> 0) by now apply length_QcN_nonzero.
  assert (Nb : QcN (length b) <> 0) by now apply length_QcN_nonzero.
  assert (Nab : QcN (length a) + QcN (length b) - two <> 0).
  { unfold two. rewrite !QcN_Z, <- QcZ_add, <- QcZ_sub.
    intros E. apply QcZ_eq_0 in E. lia. }
  rewrite <- !QcN_Z.
  rewrite (ndiv_Fin _ Na), (ndiv_Fin _ Nb).
  rewrite !QcZ_sub, !QcZ_add, QcZ_1, <- !QcN_Z.
  cbn [nmul nadd nsub nneg].
  rewrite (ndiv_Fin _ Nab).
  reflexivity.
Qed.

(** C2.  On two samples of size at least 2 the Welch test returns
    [t = (meanA - meanB) / sqrt(varA/nA + varB/nB)] with sample variances,
    the two-tailed p-value [2 (1 - CDF_t(|t|, df))] at the
    Welch-Satterthwaite [df], Cohen's d over the pooled standard deviation
    [sqrt(((nA-1) varA + (nB-1) varB) / (nA+nB-2))], and an interval centred
    on [meanA - meanB] with half-width [t_critical(df, c) * sqrt(varA/nA +
    varB/nB)]. *)
Theorem welch_t_test_formulas (a b : list Qc) (alpha c : Qc) :
  (2 <= length a)%nat -> (2 <= length b)%nat ->
  let nA := QcN (length a) in
  let nB := QcN (length b) in
  let meanA := sample_mean a in
  let meanB := sample_mean b in
  let varA := sample_variance a in
  let varB := sample_variance b in
  let se := nsqrt (Fin (varA / nA + varB / nB)) in
  let df := ndiv (Fin ((varA / nA + varB / nB) ^ 2))
                 (Fin ((varA / nA) ^ 2 / (nA - 1)
                       + (varB / nB) ^ 2 / (nB - 1))) in
  let sd := nsqrt (Fin (((nA - 1) * varA + (nB - 1) * varB)
                        / (nA + nB - two))) in
  exists r,
    welch_t_test a b alpha c = Ok r
    /\ test_statistic r = ndiv (Fin (meanA - meanB)) se
    /\ welch_df (np_var a) (np_var b)
                (Z.of_nat (length a)) (Z.of_nat (length b)) = df
    /\ p_value r
       = nmul (Fin two) (nsub (Fin 1) (t_cdf (nabs (test_statistic r)) df))
    /\ effect_size r = ndiv (Fin (meanA - meanB)) sd
    /\ lower (confidence_interval r)
       = nsub (Fin (meanA - meanB)) (nmul (t_critical df c) se)
    /\ upper (confidence_interval r)
       = nadd (Fin (meanA - meanB)) (nmul (t_critical df c) se).
Proof.
  intros Ha Hb. cbv zeta.
  exists (welch_result a b alpha c).
  split; [now apply welch_t_test_Fin |].
  split; [reflexivity |].
  split; [rewrite (np_var_Fin a Ha), (np_var_Fin b Hb); now apply welch_df_Fin |].
  repeat split.
Qed.

(** Swapping the groups. *)
Lemma welch_df_swap (va vb : num) (na nb : Z) :
  welch_df vb va nb na = welch_df va vb na nb.
Proof.
  unfold welch_df.
  now rewrite (nadd_comm (ndiv vb _)), (nadd_comm (ndiv (nsq (ndiv vb _)) _)).
Qed.

(** C9.  Running the Welch test on (B, A) instead of (A, B) negates the
    statistic, hence keeps its magnitude, and leaves the Welch-Satterthwaite
    degrees of freedom and the p-value unchanged. *)
Theorem welch_t_test_swap (a b : list Qc) (alpha c : Qc) :
  exists r_ab r_ba,
    welch_t_test a b alpha c = Ok r_ab
    /\ welch_t_test b a alpha c = Ok r_ba
    /\ test_statistic r_ba = nneg (test_statistic r_ab)
    /\ nabs (test_statistic r_ba) = nabs (test_statistic r_ab)
    /\ welch_df (np_var b) (np_var a)
                (Z.of_nat (length b)) (Z.of_nat (length a))
       = welch_df (np_var a) (np_var b)
                  (Z.of_nat (length a)) (Z.of_nat (length b))
    /\ p_value r_ba = p_value r_ab.
Proof.
  eexists. eexists.
  split; [reflexivity |]. split; [reflexivity |].
  cbn [test_statistic p_value].
  assert (T : ndiv (nsub (np_mean b) (np_mean a))
                (nsqrt (nadd (ndiv (np_var b) (Fin (QcZ (Z.of_nat (length b)))))
                             (ndiv (np_var a) (Fin (QcZ (Z.of_nat (length a)))))))
              = nneg (ndiv (nsub (np_mean a) (np_mean b))
                (nsqrt (nadd (ndiv (np_var a) (Fin (QcZ (Z.of_nat (length a)))))
                             (ndiv (np_var b) (Fin (QcZ (Z.of_nat (length b))))))))).
  { rewrite <- ndiv_nneg, nneg_nsub. now rewrite (nadd_comm (ndiv (np_var b) _)). }
  split; [exact T |].
  split; [rewrite T; apply nabs_nneg |].
  split; [apply welch_df_swap |].
  now rewrite T, nabs_nneg, welch_df_swap.
Qed.

End Welch.

(* ================================================================== *)
(** ** Order facts on rationals *)

Lemma this_mult (a b : Qc) : (this (a * b) == this a * this b)%Q.
Proof. apply Qred_correct. Qed.

Lemma this_inv (a : Qc) : (this (/ a) == / this a)%Q.
Proof. apply Qred_correct. Qed.

Lemma this_plus (a b : Qc) : (this (a + b) == this a + this b)%Q.
Proof. apply Qred_correct. Qed.

Lemma Qcmult_pos (a b : Qc) : 0 < a -> 0 < b -> 0 < a * b.
Proof.
  unfold Qclt. intros Ha Hb. rewrite this_mult.
  now apply Qmult_lt_0_compat.
Qed.

Lemma Qcmult_nonneg (a b : Qc) : 0 <= a -> 0 <= b -> 0 <= a * b.
Proof.
  unfold Qcle. intros Ha Hb. rewrite this_mult.
  now apply Qmult_le_0_compat.
Qed.

Lemma Qcinv_pos (a : Qc) : 0 < a -> 0 < / a.
Proof.
  unfold Qclt. intros Ha. rewrite this_inv. now apply Qinv_lt_0_compat.
Qed.

Lemma Qcdiv_pos (a b : Qc) : 0 < a -> 0 < b -> 0 < a / b.
Proof.
  intros Ha Hb. apply Qcmult_pos; [assumption | now apply Qcinv_pos].
Qed.

Lemma Qcdiv_nonneg (a b : Qc) : 0 <= a -> 0 < b -> 0 <= a / b.
Proof.
  intros Ha Hb. apply Qcmult_nonneg; [assumption |].
  apply Qclt_le_weak. now apply Qcinv_pos.
Qed.

Lemma Qcsq_nonneg (a : Qc) : 0 <= a ^ 2.
Proof.
  rewrite <- Qc_sq. unfold Qcle. rewrite this_mult.
  destruct (Qlt_le_dec (this a) 0) as [H | H].
  - setoid_replace (this a * this a)%Q with ((- this a) * (- this a))%Q by ring.
    apply Qmult_le_0_compat; apply Qlt_le_weak;
      apply (Qopp_lt_compat (this a) 0); assumption.
  - now apply Qmult_le_0_compat.
Qed.

Lemma pearson_term_nonneg (o e : Qc) : 0 < e -> 0 <= pearson_term o e.
Proof.
  intros H. apply Qcdiv_nonneg; [apply Qcsq_nonneg | assumption].
Qed.

Lemma sum_nonneg_from (l : list Qc) (acc : Qc) :
  0 <= acc -> Forall (fun x => 0 <= x) l -> 0 <= fold_left Qcplus l acc.
Proof.
  revert acc. induction l as [| x l IH]; intros acc Hacc Hl; simpl.
  - assumption.
  - inversion Hl; subst. apply IH; [| assumption].
    replace 0 with (0 + 0) by ring. now apply Qcplus_le_compat.
Qed.

Lemma sum_nonneg (l : list Qc) : Forall (fun x => 0 <= x) l -> 0 <= sum l.
Proof. apply sum_nonneg_from. apply Qcle_refl. Qed.

(* ================================================================== *)
(** ** Sorting and counting *)

Lemma insert_sorted_In (x y : Qc) (l : list Qc) :
  In x (insert_sorted y l) <-> x = y \/ In x l.
Proof.
  induction l as [| z l IH]; simpl.
  - intuition.
  - destruct (Qc_leb y z); simpl; [intuition |].
    rewrite IH. intuition.
Qed.

Lemma sorted_In (x : Qc) (l : list Qc) : In x (sorted l) <-> In x l.
Proof.
  induction l as [| y l IH]; simpl; [reflexivity |].
  rewrite insert_sorted_In, IH. intuition.
Qed.

Lemma insert_sorted_strict (x : Qc) (l : list Qc) :
  ~ In x l -> StronglySorted Qclt l -> StronglySorted Qclt (insert_sorted x l).
Proof.
  intros Hx Hl. induction Hl as [| y l Hl IH Hy]; simpl.
  - constructor; constructor.
  - destruct (Qc_leb x y) eqn:E.
    + apply Qc_leb_le in E.
      assert (Hxy : x < y).
      { destruct (Qcle_lt_or_eq _ _ E) as [H | H]; [assumption |].
        exfalso. apply Hx. now left. }
      constructor; [now constructor |].
      constructor; [assumption |].
      eapply Forall_impl; [| exact Hy].
      intros z Hz. now apply Qclt_trans with y.
    + assert (Hyx : y < x).
      { apply Qcnot_le_lt. intros H. apply Qc_leb_le in H. congruence. }
      constructor.
      * apply IH. intros H. apply Hx. now right.
      * apply Forall_forall. intros z Hz. apply insert_sorted_In in Hz.
        destruct Hz as [-> | Hz]; [assumption |].
        rewrite Forall_forall in Hy. now apply Hy.
Qed.

Lemma sorted_strict (l : list Qc) : NoDup l -> StronglySorted Qclt (sorted l).
Proof.
  induction 1 as [| x l Hx Hl IH]; simpl; [constructor |].
  apply insert_sorted_strict; [| assumption].
  now rewrite sorted_In.
Qed.

Lemma strict_NoDup (l : list Qc) : StronglySorted Qclt l -> NoDup l.
Proof.
  induction 1 as [| x l Hl IH Hx]; constructor; [| assumption].
  intros H. rewrite Forall_forall in Hx.
  exact (Qclt_not_eq _ _ (Hx x H) eq_refl).
Qed.

Lemma count_count_occ (data : list Qc) (v : Qc) :
  count data v = count_occ Qc_eq_dec data v.
Proof.
  induction data as [| x data IH]; simpl; [reflexivity |].
  destruct (Qc_eq_dec x v) as [E | E].
  - apply Qc_eqb_eq in E. now rewrite E, IH.
  - apply Qc_eqb_neq in E. now rewrite E, IH.
Qed.

Lemma count_In (data : list Qc) (v : Qc) : In v data -> (1 <= count data v)%nat.
Proof.
  rewrite count_count_occ. intros H.
  now apply (count_occ_In Qc_eq_dec) in H.
Qed.

Lemma total_indicator (x : Qc) (values : list Qc) :
  NoDup values -> In x values ->
  total_of (fun v => if Qc_eqb x v then 1 else 0)%nat values = 1%nat.
Proof.
  unfold total_of.
  induction 1 as [| y values Hy Hv IH]; simpl; [contradiction |].
  intros [-> | Hx].
  - rewrite Qc_eqb_refl. f_equal.
    clear IH Hv. induction values as [| z values IH]; simpl; [reflexivity |].
    assert (E : Qc_eqb x z = false).
    { apply Qc_eqb_neq. intros ->. apply Hy. now left. }
    rewrite E. apply IH. intros H. apply Hy. now right.
  - assert (E : Qc_eqb x y = false).
    { apply Qc_eqb_neq. intros ->. contradiction. }
    rewrite E. now apply IH.
Qed.

Lemma total_of_plus (f g : Qc -> nat) (values : list Qc) :
  total_of (fun v => f v + g v)%nat values
  = (total_of f values + total_of g values)%nat.
Proof.
  unfold total_of. induction values as [| v values IH]; simpl; [reflexivity |].
  rewrite IH. lia.
Qed.

(** Counting a sample value by value over a duplicate-free list that holds
    all its values gives its length. *)
Lemma total_count (data values : list Qc) :
  NoDup values -> (forall x, In x data -> In x values) ->
  total_of (count data) values = length data.
Proof.
  intros Hv. induction data as [| x data IH]; intros Hin.
  - clear. unfold total_of.
    induction values as [| v values IH]; simpl; [reflexivity | exact IH].
  - change (count (x :: data))
      with (fun v => ((if Qc_eqb x v then 1 else 0) + count data v)%nat).
    rewrite total_of_plus, total_indicator, IH; trivial.
    + intros y Hy. apply Hin. now right.
    + apply Hin. now left.
Qed.

(* ================================================================== *)
(** ** The contingency table of two samples *)

Lemma contingency_values (a b : list Qc) :
  let values := sorted (py_set (a ++ b)) in
  StronglySorted Qclt values
  /\ (forall v, In v values <-> In v a \/ In v b)
  /\ contingency_table_of a b = map (fun v => (count a v, count b v)) values.
Proof.
  cbv zeta. split; [apply sorted_strict, py_set_NoDup |].
  split; [| reflexivity].
  intros v. now rewrite sorted_In, py_set_In, in_app_iff.
Qed.

Lemma contingency_col_sum_a (a b : list Qc) :
  col_sum_a (contingency_table_of a b) = length a.
Proof.
  destruct (contingency_values a b) as [Hs [Hin ->]].
  unfold col_sum_a. rewrite map_map. cbn [fst].
  apply (total_count a (strict_NoDup Hs)).
  intros x Hx. apply Hin. now left.
Qed.

Lemma contingency_col_sum_b (a b : list Qc) :
  col_sum_b (contingency_table_of a b) = length b.
Proof.
  destruct (contingency_values a b) as [Hs [Hin ->]].
  unfold col_sum_b. rewrite map_map. cbn [snd].
  apply (total_count b (strict_NoDup Hs)).
  intros x Hx. apply Hin. now right.
Qed.

Lemma contingency_populated (a b : list Qc) :
  a <> [] -> b <> [] -> populated (contingency_table_of a b).
Proof.
  intros Ha Hb. unfold populated.
  rewrite contingency_col_sum_a, contingency_col_sum_b.
  destruct (contingency_values a b) as [Hs [Hin E]].
  split; [| split; [| split]].
  - rewrite E. destruct a as [| x a]; [congruence |].
    assert (Hx : In x (sorted (py_set ((x :: a) ++ b)))).
    { apply Hin. left. now left. }
    destruct (sorted _); [contradiction | discriminate].
  - rewrite E. apply Forall_forall. intros row Hrow.
    apply in_map_iff in Hrow. destruct Hrow as [v [<- Hv]]. cbn [fst snd].
    apply Hin in Hv. destruct Hv as [Hv | Hv]; apply count_In in Hv; lia.
  - destruct a; [congruence | simpl; lia].
  - destruct b; [congruence | simpl; lia].
Qed.

(* ================================================================== *)
(** ** [chi2_contingency] on a populated table *)

Lemma populated_total (T : Table) : populated T -> (1 <= table_total T)%nat.
Proof. intros [_ [_ [H _]]]. unfold table_total. lia. Qed.

Lemma expected_freq_fin (T : Table) :
  (1 <= table_total T)%nat -> expected_freq T = fin_cells (expected_counts T).
Proof.
  intros H. unfold expected_freq, fin_cells, expected_counts, row_sums.
  rewrite !map_map. apply map_ext. intros row. cbn [fst snd].
  assert (N : QcN (table_total T) <> 0) by (rewrite QcN_eq_0; lia).
  now rewrite !(ndiv_Fin _ N).
Qed.

Lemma expected_counts_pos (T : Table) :
  populated T ->
  Forall (fun c => 0 < fst c /\ 0 < snd c) (expected_counts T).
Proof.
  intros HT. pose proof (populated_total HT) as Ht.
  destruct HT as [_ [Hrows [Ha Hb]]].
  unfold expected_counts. apply Forall_forall. intros c Hc.
  apply in_map_iff in Hc. destruct Hc as [row [<- Hrow]]. cbn [fst snd].
  rewrite Forall_forall in Hrows. specialize (Hrows row Hrow).
  split; apply Qcdiv_pos; try apply Qcmult_pos; apply QcN_pos; lia.
Qed.

Lemma has_zero_fin (E : QCells) :
  Forall (fun c => 0 < fst c /\ 0 < snd c) E -> has_zero (fin_cells E) = false.
Proof.
  intros H. unfold has_zero, fin_cells.
  apply not_true_iff_false. rewrite existsb_exists.
  intros [c [Hc Hz]]. apply in_map_iff in Hc. destruct Hc as [q [<- Hq]].
  rewrite Forall_forall in H. destruct (H q Hq) as [H1 H2].
  cbn [fst snd neqb] in Hz. apply orb_true_iff in Hz.
  destruct Hz as [Hz | Hz]; apply Qc_eqb_eq in Hz;
    [apply (Qclt_not_eq _ _ H1) | apply (Qclt_not_eq _ _ H2)]; congruence.
Qed.

Lemma cells_map2_fin (f : num -> num -> num) (g : Qc -> Qc -> Qc)
    (P : Qc -> Prop) (xs ys : QCells) :
  (forall o e, P e -> f (Fin o) (Fin e) = Fin (g o e)) ->
  Forall (fun c => P (fst c) /\ P (snd c)) ys ->
  cells_map2 f (fin_cells xs) (fin_cells ys)
  = fin_cells (map (fun p => (g (fst (fst p)) (fst (snd p)),
                              g (snd (fst p)) (snd (snd p))))
                   (combine xs ys)).
Proof.
  intros Hf. revert ys. unfold cells_map2, fin_cells.
  induction xs as [| x xs IH]; intros ys Hys; [reflexivity |].
  destruct ys as [| y ys]; [reflexivity |].
  inversion Hys as [| ? ? [H1 H2] Hys']; subst.
  cbn [map combine fst snd]. rewrite (Hf _ _ H1), (Hf _ _ H2).
  f_equal. now apply IH.
Qed.

Lemma cells_sum_fin (xs : QCells) :
  cells_sum (fin_cells xs)
  = Fin (sum (flat_map (fun c => [fst c; snd c]%list) xs)).
Proof.
  unfold cells_sum, fin_cells. rewrite <- nsum_Fin. f_equal.
  induction xs as [| x xs IH]; [reflexivity |].
  cbn [map flat_map app fst snd]. now rewrite IH.
Qed.

Lemma chi2_sum_flat (obs expd : QCells) :
  sum (flat_map (fun c => [fst c; snd c]%list)
         (map (fun p => (pearson_term (fst (fst p)) (fst (snd p)),
                         pearson_term (snd (fst p)) (snd (snd p))))
              (combine obs expd)))
  = chi2_sum obs expd.
Proof.
  unfold chi2_sum. f_equal.
  induction (combine obs expd) as [| p l IH]; [reflexivity |].
  cbn [map flat_map app fst snd]. now rewrite IH.
Qed.

Lemma pearson_cell_Fin (o e : Qc) :
  0 < e -> pearson_cell (Fin o) (Fin e) = Fin (pearson_term o e).
Proof.
  intros H. unfold pearson_cell, pearson_term, nsq.
  cbn [nsub nneg nadd nmul].
  rewrite ndiv_Fin by (intros E; now apply (Qclt_not_eq _ _ H)).
  now rewrite Qc_sq.
Qed.

Lemma yates_cell_Fin (o e : Qc) :
  yates_cell (Fin o) (Fin e) = Fin (yates_adjust o e).
Proof.
  unfold yates_cell, yates_adjust, Qc_min, Qc_sign.
  cbn [nsub nneg nadd nabs nsign nmin nle].
  change (e + - o) with (e - o).
  destruct (e - o ?= 0); destruct (Qc_leb half (Qcabs (e - o))); reflexivity.
Qed.

Section Chi2.

Context {L : NumLib}.

Lemma pearson_stat_fin (obs expd : QCells) :
  Forall (fun c => 0 < fst c /\ 0 < snd c) expd ->
  cells_sum (cells_map2 pearson_cell (fin_cells obs) (fin_cells expd))
  = Fin (chi2_sum obs expd).
Proof.
  intros H.
  rewrite (cells_map2_fin pearson_cell pearson_term (fun e => 0 < e));
    [| intros o e; apply pearson_cell_Fin | assumption].
  now rewrite cells_sum_fin, chi2_sum_flat.
Qed.

Lemma chi2_contingency_populated (T : Table) :
  populated T ->
  chi2_contingency T
  = Ok (Fin (chi2_value T), chi2_p_value T, (Z.of_nat (length T) - 1)%Z,
        fin_cells (expected_counts T)).
Proof.
  intros HT. pose proof (expected_counts_pos HT) as Hpos.
  pose proof (populated_total HT) as Ht.
  unfold chi2_contingency.
  destruct T as [| row T']; [now destruct HT |].
  remember (row :: T') as T eqn:ET.
  rewrite (expected_freq_fin T Ht), (has_zero_fin Hpos).
  replace (2 * Z.of_nat (length T) - (Z.of_nat (length T) + 2) + 2 - 1)%Z
    with (Z.of_nat (length T) - 1)%Z by ring.
  unfold chi2_p_value, chi2_value, power_divergence.
  assert (EO : as_cells T = fin_cells (observed_counts T)).
  { unfold as_cells, fin_cells, observed_counts. now rewrite map_map. }
  destruct (length T) as [| [| [| n]]] eqn:EL.
  - subst T. discriminate.
  - reflexivity.
  - change (Z.of_nat 2 - 1)%Z with 1%Z. cbn [Z.eqb Pos.eqb].
    rewrite EO.
    rewrite (cells_map2_fin yates_cell yates_adjust (fun _ => True));
      [| intros o e _; apply yates_cell_Fin
       | apply Forall_forall; intros; split; exact I].
    fold (yates_counts T). now rewrite (pearson_stat_fin _ Hpos).
  - replace (Z.of_nat (S (S (S n))) - 1 =? 0)%Z with false
      by (symmetry; apply Z.eqb_neq; lia).
    replace (Z.of_nat (S (S (S n))) - 1 =? 1)%Z with false
      by (symmetry; apply Z.eqb_neq; lia).
    rewrite EO. now rewrite (pearson_stat_fin _ Hpos).
Qed.

End Chi2.

(* ================================================================== *)
(** ** Chi-squared test *)

Lemma chi2_sum_nonneg (obs expd : QCells) :
  Forall (fun c => 0 < fst c /\ 0 < snd c) expd -> 0 <= chi2_sum obs expd.
Proof.
  intros H. unfold chi2_sum. apply sum_nonneg.
  apply Forall_forall. intros x Hx. apply in_flat_map in Hx.
  destruct Hx as [[o e] [Hp Hx]]. apply in_combine_r in Hp.
  rewrite Forall_forall in H. destruct (H e Hp) as [H1 H2].
  cbn [fst snd] in Hx.
  destruct Hx as [<- | [<- | []]]; now apply pearson_term_nonneg.
Qed.

Lemma chi2_value_nonneg (T : Table) : populated T -> 0 <= chi2_value T.
Proof.
  intros HT. pose proof (expected_counts_pos HT) as Hpos.
  unfold chi2_value, yates_chi2, pearson_chi2.
  destruct (length T) as [| [| [| n]]];
    try (now apply chi2_sum_nonneg); apply Qcle_refl.
Qed.

Lemma pearson_term_same (o : Qc) : pearson_term o o = 0.
Proof. unfold pearson_term, Qcdiv. simpl. ring. Qed.

(** On a single row the observed counts are the expected ones. *)
Lemma pearson_chi2_one_row (T : Table) :
  populated T -> length T = 1%nat -> pearson_chi2 T = 0.
Proof.
  intros HT HL. pose proof (populated_total HT) as Ht.
  destruct T as [| [x y] [| row T]]; try discriminate.
  unfold table_total, col_sum_a, col_sum_b in Ht. cbn in Ht.
  unfold pearson_chi2, chi2_sum, observed_counts, expected_counts,
    table_total, col_sum_a, col_sum_b.
  cbn [map combine flat_map app fst snd fold_right].
  rewrite !Nat.add_0_r.
  assert (N : QcN (x + y) <> 0) by (rewrite QcN_eq_0; lia).
  replace (QcN (x + y) * QcN x / QcN (x + y)) with (QcN x) by now field.
  replace (QcN (x + y) * QcN y / QcN (x + y)) with (QcN y) by now field.
  rewrite !pearson_term_same. reflexivity.
Qed.



Section ChiSquared.

Context {L : NumLib}.

Lemma chi_squared_test_nonempty (a b : list Qc) (alpha c : Qc) :
  a <> [] -> b <> [] ->
  chi_squared_test a b alpha c = Ok (chi_squared_result a b alpha).
Proof.
  intros Ha Hb. unfold chi_squared_test.
  now rewrite (chi2_contingency_populated (contingency_populated Ha Hb)).
Qed.

(** C3 (as amended).  On two non-empty samples the table has one row per
    distinct value of the two groups, in increasing order, holding the two
    groups' counts of that value.  The statistic is Pearson's uncorrected
    one when the table has one row (it is 0, reported with p-value 1) or at
    least three rows; on exactly two rows it is Pearson's statistic after
    Yates' continuity correction.  From two rows on, the p-value is the
    chi-squared tail probability of the statistic at [rows - 1] degrees of
    freedom. *)
Theorem chi_squared_test_statistic (a b : list Qc) (alpha c : Qc) :
  a <> [] -> b <> [] ->
  let T := contingency_table_of a b in
  (exists values,
      StronglySorted Qclt values
      /\ (forall v, In v values <-> In v a \/ In v b)
      /\ T = map (fun v => (count_occ Qc_eq_dec a v, count_occ Qc_eq_dec b v))
                 values)
  /\ exists r,
      chi_squared_test a b alpha c = Ok r
      /\ (length T = 1%nat ->
          test_statistic r = Fin (pearson_chi2 T)
          /\ pearson_chi2 T = 0 /\ p_value r = Fin 1)
      /\ (length T = 2%nat ->
          test_statistic r = Fin (yates_chi2 T)
          /\ p_value r = chi2_sf (Fin (yates_chi2 T)) 1)
      /\ ((3 <= length T)%nat ->
          test_statistic r = Fin (pearson_chi2 T)
          /\ p_value r
             = chi2_sf (Fin (pearson_chi2 T)) (Z.of_nat (length T) - 1)).
Proof.
  intros Ha Hb T. split.
  - exists (sorted (py_set (a ++ b))).
    destruct (contingency_values a b) as [Hs [Hin E]].
    split; [assumption |]. split; [assumption |].
    unfold T. rewrite E. apply map_ext. intros v.
    now rewrite !count_count_occ.
  - exists (chi_squared_result a b alpha).
    split; [now apply chi_squared_test_nonempty |].
    pose proof (contingency_populated Ha Hb) as HT. fold T in HT.
    unfold chi_squared_result. cbn [test_statistic p_value]. fold T.
    unfold chi2_p_value, chi2_value.
    split; [| split]; intros HL.
    + rewrite HL, (pearson_chi2_one_row HT HL). repeat split.
    + rewrite HL. split; reflexivity.
    + destruct (length T) as [| [| [| n]]]; try lia. split; reflexivity.
Qed.


End ChiSquared.

(* ================================================================== *)
(** ** The entry point *)

Lemma resolve_binary (ta tb : DataType) :
  resolve ta tb = binary <-> ta = binary \/ tb = binary.
Proof. destruct ta, tb; cbv; intuition congruence. Qed.

Lemma resolve_categorical (ta tb : DataType) :
  resolve ta tb = categorical
  <-> ta <> binary /\ tb <> binary /\ (ta = categorical \/ tb = categorical).
Proof. destruct ta, tb; cbv; intuition congruence. Qed.

Lemma resolve_continuous (ta tb : DataType) :
  resolve ta tb = continuous <-> ta = continuous /\ tb = continuous.
Proof. destruct ta, tb; cbv; intuition congruence. Qed.

Lemma np_var_singleton (x : Qc) : np_var [x] = NaN.
Proof.
  unfold np_var, np_mean, sum, nsum.
  cbn [length map fold_left Z.of_nat Z.sub Z.max].
  change (QcN 1) with 1.
  rewrite ndiv_Fin by discriminate.
  unfold nsq. cbn [nsub nneg nadd nmul fold_left].
  change (QcZ (Z.max (Z.of_nat 1 - 1) 0)) with 0.
  unfold ndiv. rewrite Qc_eqb_refl.
  replace (0 + (x + - ((0 + x) / 1)) * (x + - ((0 + x) / 1))) with 0
    by (field; discriminate).
  reflexivity.
Qed.

Lemma length_one (data : list Qc) :
  length data = 1%nat -> exists x, data = [x]%list.
Proof.
  destruct data as [| x [| y data]]; try discriminate. now exists x.
Qed.

Lemma ndiv_NaN_l (x : num) : ndiv NaN x = NaN.
Proof. reflexivity. Qed.

Lemma ndiv_NaN_r (x : num) : ndiv x NaN = NaN.
Proof. now destruct x. Qed.

Lemma nmul_NaN_l (x : num) : nmul NaN x = NaN.
Proof. reflexivity. Qed.

Lemma nmul_NaN_r (x : num) : nmul x NaN = NaN.
Proof. now destruct x. Qed.

Lemma nadd_NaN_l (x : num) : nadd NaN x = NaN.
Proof. reflexivity. Qed.

Lemma nadd_NaN_r (x : num) : nadd x NaN = NaN.
Proof. now destruct x. Qed.

Lemma nneg_NaN : nneg NaN = NaN.
Proof. reflexivity. Qed.

Lemma nsqrt_NaN {L : NumLib} : nsqrt NaN = NaN.
Proof. reflexivity. Qed.

Create Rewrite HintDb nan.
#[export] Hint Rewrite ndiv_NaN_l ndiv_NaN_r nmul_NaN_l nmul_NaN_r
  nadd_NaN_l nadd_NaN_r nneg_NaN @nsqrt_NaN : nan.

Section Analyze.

Context {L : NumLib}.

Lemma analyze_data_run (inputs : StatisticalInputs) :
  analyze_data inputs
  = run_test (resolve (detect_data_type (group_a inputs))
                      (detect_data_type (group_b inputs)))
             (group_a inputs) (group_b inputs)
             (significance_level inputs) (confidence_level inputs).
Proof.
  unfold analyze_data.
  destruct (detect_data_type (group_a inputs));
    destruct (detect_data_type (group_b inputs)); reflexivity.
Qed.

Lemma run_test_nonempty (t : DataType) (a b : list Qc) (alpha c : Qc) :
  a <> [] -> b <> [] ->
  exists r, run_test t a b alpha c = Ok r
            /\ data_type r = t /\ test_type r = matching_test t.
Proof.
  intros Ha Hb. destruct t; cbn [run_test].
  - eexists. split; [reflexivity |]. split; reflexivity.
  - exists (z_test_result a b alpha c).
    split; [now apply two_proportion_z_test_nonempty |]. split; reflexivity.
  - exists (chi_squared_result a b alpha).
    split; [now apply chi_squared_test_nonempty |]. split; reflexivity.
Qed.

Lemma detect_empty : detect_data_type [] = binary.
Proof. reflexivity. Qed.

Lemma analyze_data_empty (inputs : StatisticalInputs) :
  group_a inputs = [] \/ group_b inputs = [] ->
  analyze_data inputs
  = two_proportion_z_test (group_a inputs) (group_b inputs)
      (significance_level inputs) (confidence_level inputs).
Proof.
  intros H. rewrite analyze_data_run.
  replace (resolve _ _) with binary; [reflexivity |].
  symmetry. apply resolve_binary.
  destruct H as [-> | ->]; [left | right]; apply detect_empty.
Qed.

Lemma analyze_data_empty_raises (inputs : StatisticalInputs) :
  group_a inputs = [] \/ group_b inputs = [] ->
  analyze_data inputs = Raise ZeroDivisionError.
Proof.
  intros H. rewrite (analyze_data_empty inputs H).
  now apply two_proportion_z_test_empty.
Qed.

Lemma analyze_data_nonempty (inputs : StatisticalInputs) :
  group_a inputs <> [] -> group_b inputs <> [] ->
  succeeds (analyze_data inputs).
Proof.
  intros Ha Hb. rewrite analyze_data_run.
  destruct (run_test_nonempty
              (resolve (detect_data_type (group_a inputs))
                       (detect_data_type (group_b inputs)))
              (significance_level inputs) (confidence_level inputs) Ha Hb)
    as [r [E _]].
  now exists r.
Qed.

Lemma welch_t_test_singleton (a b : list Qc) (alpha c : Qc) :
  length a = 1%nat \/ length b = 1%nat ->
  exists r,
    welch_t_test a b alpha c = Ok r
    /\ test_statistic r = NaN /\ effect_size r = NaN
    /\ lower (confidence_interval r) = NaN
    /\ upper (confidence_interval r) = NaN.
Proof.
  intros H. eexists. split; [reflexivity |].
  cbn [test_statistic effect_size confidence_interval lower upper].
  destruct H as [H | H]; apply length_one in H; destruct H as [x ->];
    rewrite np_var_singleton; unfold nsub;
    autorewrite with nan; repeat split.
Qed.

End Analyze.

Section Claims.

Context {L : NumLib}.

(** C1.  On two non-empty samples [analyze_data] resolves the data type by
    the dominance order Binary > Categorical > Continuous over the two
    classifications, runs the test of the resolved type (the z-test as soon
    as a group is binary, else the chi-squared test as soon as a group is
    categorical, else the Welch t-test), and returns a result whose
    [data_type] is the resolved type and whose [test_type] is its test. *)
Theorem analyze_data_dispatch (inputs : StatisticalInputs) :
  group_a inputs <> [] -> group_b inputs <> [] ->
  let a := group_a inputs in
  let b := group_b inputs in
  let alpha := significance_level inputs in
  let c := confidence_level inputs in
  let ta := detect_data_type a in
  let tb := detect_data_type b in
  let t := resolve ta tb in
  (ta = binary \/ tb = binary ->
   t = binary /\ analyze_data inputs = two_proportion_z_test a b alpha c)
  /\ (ta <> binary -> tb <> binary -> ta = categorical \/ tb = categorical ->
      t = categorical /\ analyze_data inputs = chi_squared_test a b alpha c)
  /\ (ta = continuous -> tb = continuous ->
      t = continuous /\ analyze_data inputs = welch_t_test a b alpha c)
  /\ exists r,
      analyze_data inputs = Ok r
      /\ data_type r = t /\ test_type r = matching_test t.
Proof.
  intros Ha Hb a b alpha c ta tb t.
  pose proof (analyze_data_run inputs) as E. fold a b alpha c ta tb t in E.
  split; [| split; [| split]].
  - intros H. apply resolve_binary in H. fold t in H.
    split; [assumption |]. now rewrite E, H.
  - intros H1 H2 H3.
    assert (H : t = categorical) by (apply resolve_categorical; auto).
    split; [assumption |]. now rewrite E, H.
  - intros H1 H2.
    assert (H : t = continuous) by (apply resolve_continuous; auto).
    split; [assumption |]. now rewrite E, H.
  - rewrite E. now apply run_test_nonempty.
Qed.

(** C10.  The empty sample classifies as binary, so a call with an empty
    group is the z-test's call on the same arguments: the empty input is
    not set apart before the dispatch. *)
Theorem empty_group_takes_z_test :
  detect_data_type [] = binary
  /\ (forall b alpha pw c,
         analyze_data {| group_a := []; group_b := b;
                         significance_level := alpha; power := pw;
                         confidence_level := c |}
         = two_proportion_z_test [] b alpha c)
  /\ (forall a alpha pw c,
         analyze_data {| group_a := a; group_b := [];
                         significance_level := alpha; power := pw;
                         confidence_level := c |}
         = two_proportion_z_test a [] alpha c).
Proof.
  split; [reflexivity |].
  split; intros; rewrite analyze_data_empty; cbn; auto.
Qed.

(** C5 (as amended).  A call with an empty group fails: it raises
    [ZeroDivisionError].  A call with two non-empty groups returns a result;
    when a group has a single observation and both groups are continuous,
    that result carries [nan] as test statistic, effect size and interval
    ends. *)
Theorem insufficient_data_outcome (inputs : StatisticalInputs) :
  (group_a inputs = [] \/ group_b inputs = [] ->
   analyze_data inputs = Raise ZeroDivisionError)
  /\ (group_a inputs <> [] -> group_b inputs <> [] ->
      succeeds (analyze_data inputs))
  /\ (detect_data_type (group_a inputs) = continuous ->
      detect_data_type (group_b inputs) = continuous ->
      length (group_a inputs) = 1%nat \/ length (group_b inputs) = 1%nat ->
      exists r,
        analyze_data inputs = Ok r
        /\ test_statistic r = NaN /\ effect_size r = NaN
        /\ lower (confidence_interval r) = NaN
        /\ upper (confidence_interval r) = NaN).
Proof.
  split; [apply analyze_data_empty_raises |].
  split; [apply analyze_data_nonempty |].
  intros Ha Hb Hn. rewrite analyze_data_run.
  rewrite (proj2 (resolve_continuous _ _) (conj Ha Hb)).
  now apply welch_t_test_singleton.
Qed.

(** C6 (as amended).  [analyze_data] does not look at the range of the
    significance and confidence levels: whatever their values, it returns a
    result exactly when both groups are non-empty. *)
Theorem levels_not_validated (inputs : StatisticalInputs) :
  succeeds (analyze_data inputs)
  <-> group_a inputs <> [] /\ group_b inputs <> [].
Proof.
  split.
  - intros [r E]. split; intros H;
      rewrite analyze_data_empty_raises in E by auto; discriminate.
  - intros [Ha Hb]. now apply analyze_data_nonempty.
Qed.

End Claims.

(* ================================================================== *)
(** ** The theorems at concrete inputs *)


(** The three samples pairs of the specification's scenarios. *)
Example converted_proportions :
  pA converted_a = q 3 5 /\ pB converted_b = q 1 2
  /\ p_pooled converted_a converted_b = q 11 20
  /\ detect_data_type converted_a = binary.
Proof.
  repeat split; try (apply Qc_is_canon; vm_compute; reflexivity).
Qed.

Example measured_degrees_of_freedom :
  detect_data_type measured_a = categorical
  /\ welch_df (np_var measured_a) (np_var measured_b)
              (Z.of_nat (length measured_a)) (Z.of_nat (length measured_b))
     = Fin (q 2888 397).
Proof.
  split; [reflexivity |].
  rewrite (np_var_Fin measured_a), (np_var_Fin measured_b) by (simpl; lia).
  rewrite (welch_df_Fin measured_a measured_b) by (simpl; lia).
  unfold welch_satterthwaite.
  rewrite ndiv_Fin by (intros E; apply (f_equal this) in E; vm_compute in E;
                       discriminate).
  f_equal. apply Qc_is_canon. vm_compute. reflexivity.
Qed.

Example three_valued_statistic :
  contingency_table_of three_valued_a three_valued_b
  = [(2, 2); (2, 0); (1, 3)]%nat%list
  /\ chi2_value (contingency_table_of three_valued_a three_valued_b) = q 3 1.
Proof.
  split; [reflexivity |]. apply Qc_is_canon. vm_compute. reflexivity.
Qed.

(** C3, counterexample.  Two categorical samples over the two values 1 and
    2: the table is [[2,1],[1,2]], every expected count is 3/2, Pearson's
    uncorrected statistic is 2/3, and the test reports 0. *)
Lemma two_values_yates_corrected :
  detect_data_type two_valued_a = categorical
  /\ detect_data_type two_valued_b = categorical
  /\ contingency_table_of two_valued_a two_valued_b
     = [(2, 1); (1, 2)]%nat%list
  /\ pearson_chi2 (contingency_table_of two_valued_a two_valued_b) = q 2 3
  /\ forall (L : NumLib) (alpha c : Qc),
      exists r,
        chi_squared_test two_valued_a two_valued_b alpha c = Ok r
        /\ test_statistic r = Fin 0.
Proof.
  split; [reflexivity |]. split; [reflexivity |]. split; [reflexivity |].
  split; [apply Qc_is_canon; vm_compute; reflexivity |].
  intros L alpha c. eexists.
  split; [apply chi_squared_test_nonempty; discriminate |].
  cbn [chi_squared_result test_statistic].
  f_equal; apply Qc_is_canon; vm_compute; reflexivity.
Qed.

(** C5, counterexample.  Group A holds the single value 2.5 and group B the
    values 1.5 and 3.7: both are continuous, the t-test runs, and the call
    returns a result whose statistic is [nan]; no error is raised. *)
Lemma singleton_group_returns_result :
  length (group_a singleton_inputs) = 1%nat
  /\ detect_data_type (group_a singleton_inputs) = continuous
  /\ detect_data_type (group_b singleton_inputs) = continuous
  /\ forall L : NumLib,
      exists r,
        analyze_data singleton_inputs = Ok r
        /\ test_type r = t_test /\ test_statistic r = NaN.
Proof.
  split; [reflexivity |]. split; [reflexivity |]. split; [reflexivity |].
  intros L. eexists. split; [reflexivity |]. split; reflexivity.
Qed.

(** C6, counterexample.  With significance level 2 and confidence level 1.5
    on the binary groups [1,0] and [1,1] the z-test runs and a result is
    returned. *)
Lemma wild_levels_accepted :
  ~ valid_level (significance_level wild_level_inputs)
  /\ ~ valid_level (confidence_level wild_level_inputs)
  /\ forall L : NumLib,
      exists r,
        analyze_data wild_level_inputs = Ok r /\ test_type r = z_test.
Proof.
  split; [intros [_ H]; discriminate H |].
  split; [intros [_ H]; discriminate H |].
  intros L. eexists. split; reflexivity.
Qed.


(** C1 at the three-valued samples: the chi-squared test is selected. *)
Lemma analyze_data_dispatch_witness :
  let inputs := {| group_a := three_valued_a; group_b := three_valued_b;
                   significance_level := q 5 100; power := q 8 10;
                   confidence_level := q 95 100 |} in
  group_a inputs <> [] /\ group_b inputs <> []
  /\ exists r,
      analyze_data (L := example_lib) inputs = Ok r
      /\ data_type r = categorical /\ test_type r = chi_squared.
Proof.
  intros inputs.
  assert (Ha : group_a inputs <> []) by discriminate.
  assert (Hb : group_b inputs <> []) by discriminate.
  split; [exact Ha |]. split; [exact Hb |].
  destruct (analyze_data_dispatch (L := example_lib) inputs Ha Hb)
    as [_ [_ [_ H]]].
  exact H.
Defined.

(** C2 at the two measured samples. *)
Lemma welch_t_test_formulas_witness :
  (2 <= length measured_a)%nat /\ (2 <= length measured_b)%nat
  /\ exists r,
      welch_t_test (L := example_lib) measured_a measured_b (q 5 100) (q 95 100)
      = Ok r
      /\ test_statistic r
         = ndiv (Fin (sample_mean measured_a - sample_mean measured_b))
                (nsqrt (L := example_lib)
                   (Fin (sample_variance measured_a / QcN 5
                         + sample_variance measured_b / QcN 5))).
Proof.
  assert (Ha : (2 <= length measured_a)%nat) by (simpl; lia).
  assert (Hb : (2 <= length measured_b)%nat) by (simpl; lia).
  split; [exact Ha |]. split; [exact Hb |].
  destruct (welch_t_test_formulas (L := example_lib) measured_a measured_b
              (q 5 100) (q 95 100) Ha Hb) as [r [E [Ht _]]].
  exists r. split; [exact E | exact Ht].
Defined.

(** C3 (as amended) at the three-valued samples: three rows, Pearson's
    uncorrected statistic. *)
Lemma chi_squared_test_statistic_witness :
  three_valued_a <> [] /\ three_valued_b <> []
  /\ exists r,
      chi_squared_test (L := example_lib) three_valued_a three_valued_b
        (q 5 100) (q 95 100) = Ok r
      /\ test_statistic r
         = Fin (pearson_chi2 (contingency_table_of three_valued_a three_valued_b)).
Proof.
  assert (Ha : three_valued_a <> []) by discriminate.
  assert (Hb : three_valued_b <> []) by discriminate.
  split; [exact Ha |]. split; [exact Hb |].
  destruct (chi_squared_test_statistic (L := example_lib) (q 5 100) (q 95 100)
              Ha Hb) as [_ [r [E [_ [_ H3]]]]].
  exists r. split; [exact E |].
  apply H3. simpl. lia.
Defined.

(** C4 at the two conversion samples. *)
Lemma z_test_formulas_witness :
  converted_a <> [] /\ converted_b <> []
  /\ exists r,
      two_proportion_z_test (L := example_lib) converted_a converted_b
        (q 5 100) (q 95 100) = Ok r
      /\ effect_size r = Fin (pA converted_a - pB converted_b).
Proof.
  assert (Ha : converted_a <> []) by discriminate.
  assert (Hb : converted_b <> []) by discriminate.
  split; [exact Ha |]. split; [exact Hb |].
  destruct (z_test_formulas (L := example_lib) (q 5 100) (q 95 100) Ha Hb)
    as [r [E [_ [_ [_ [_ [_ [_ H]]]]]]]].
  exists r. split; [exact E | exact H].
Defined.

(** C5 (as amended) at the singleton inputs. *)
Lemma insufficient_data_outcome_witness :
  detect_data_type (group_a singleton_inputs) = continuous
  /\ detect_data_type (group_b singleton_inputs) = continuous
  /\ length (group_a singleton_inputs) = 1%nat
  /\ exists r,
      analyze_data (L := example_lib) singleton_inputs = Ok r
      /\ test_statistic r = NaN.
Proof.
  split; [reflexivity |]. split; [reflexivity |]. split; [reflexivity |].
  destruct (insufficient_data_outcome (L := example_lib) singleton_inputs)
    as [_ [_ H]].
  destruct (H eq_refl eq_refl (or_introl eq_refl)) as [r [E [Ht _]]].
  exists r. split; [exact E | exact Ht].
Defined.


(* ================================================================== *)
(** ** What every result of the analyzer satisfies *)

Section ResultInvariants.

Context {L : NumLib}.

Lemma decide_on_reject (b : bool) : decide_on b = reject <-> b = true.
Proof. destruct b; cbn; split; congruence. Qed.

Lemma welch_t_test_well_formed (a b : list Qc) (alpha c : Qc) r :
  welch_t_test a b alpha c = Ok r -> well_formed alpha r.
Proof.
  unfold welch_t_test. intros E. injection E as <-.
  repeat split; cbn; try apply decide_on_reject; intros H;
    now apply decide_on_reject.
Qed.

Lemma bind_Ok {A B : Type} (m : outcome A) (k : A -> outcome B) (y : B) :
  bind m k = Ok y -> exists x, m = Ok x /\ k x = Ok y.
Proof.
  destruct m as [x | e]; cbn; [| discriminate]. intros H. now exists x.
Qed.

Lemma two_proportion_z_test_well_formed (a b : list Qc) (alpha c : Qc) r :
  two_proportion_z_test a b alpha c = Ok r -> well_formed alpha r.
Proof.
  unfold two_proportion_z_test. intros E.
  repeat (apply bind_Ok in E; destruct E as [? [_ E]]).
  injection E as <-.
  repeat split; cbn; try apply decide_on_reject; intros H;
    now apply decide_on_reject.
Qed.

Lemma chi_squared_test_well_formed (a b : list Qc) (alpha c : Qc) r :
  chi_squared_test a b alpha c = Ok r -> well_formed alpha r.
Proof.
  unfold chi_squared_test. intros E.
  apply bind_Ok in E. destruct E as [[[[chi2 p] dof] expected] [_ E]].
  injection E as <-.
  repeat split; cbn; try apply decide_on_reject; intros H;
    now apply decide_on_reject.
Qed.

(** X1.  Every result [analyze_data] returns pairs its data type with that
    type's test, flags significance exactly when the p-value is below the
    significance level, and decides to reject exactly when it is flagged. *)
Theorem analyze_data_well_formed (inputs : StatisticalInputs) r :
  analyze_data inputs = Ok r ->
  test_type r = matching_test (data_type r)
  /\ is_significant r = nlt (p_value r) (Fin (significance_level inputs))
  /\ (decision r = reject <-> is_significant r = true).
Proof.
  rewrite analyze_data_run.
  destruct (resolve _ _); cbn [run_test]; intros E.
  - eapply welch_t_test_well_formed; eassumption.
  - eapply two_proportion_z_test_well_formed; eassumption.
  - eapply chi_squared_test_well_formed; eassumption.
Qed.

End ResultInvariants.

(* ================================================================== *)
(** ** Exchanging the two groups in the chi-squared test *)

Lemma strict_sorted_unique (l1 l2 : list Qc) :
  StronglySorted Qclt l1 -> StronglySorted Qclt l2 ->
  (forall x, In x l1 <-> In x l2) -> l1 = l2.
Proof.
  intros H1. revert l2.
  induction H1 as [| x l1 H1 IH Hx]; intros l2 H2 Hin.
  - destruct l2 as [| y l2]; [reflexivity |].
    exfalso. apply (Hin y). now left.
  - destruct H2 as [| y l2 H2 Hy].
    + exfalso. apply (Hin x). now left.
    + rewrite Forall_forall in Hx, Hy.
      assert (E : x = y).
      { destruct (proj1 (Hin x) (or_introl eq_refl)) as [E | Hxl2]; [easy |].
        destruct (proj2 (Hin y) (or_introl eq_refl)) as [E | Hyl1]; [easy |].
        exfalso. apply (Qclt_not_le _ _ (Hx y Hyl1)).
        apply Qclt_le_weak. now apply Hy. }
      subst y. f_equal. apply IH; [assumption |].
      intros z. split; intros Hz.
      * destruct (proj1 (Hin z) (or_intror Hz)) as [E | H]; [| assumption].
        subst z. exfalso. exact (Qclt_not_eq _ _ (Hx x Hz) eq_refl).
      * destruct (proj2 (Hin z) (or_intror Hz)) as [E | H]; [| assumption].
        subst z. exfalso. exact (Qclt_not_eq _ _ (Hy x Hz) eq_refl).
Qed.

Lemma contingency_table_swap (a b : list Qc) :
  contingency_table_of b a = swap_table (contingency_table_of a b).
Proof.
  destruct (contingency_values a b) as [Hs [Hin ->]].
  destruct (contingency_values b a) as [Hs' [Hin' ->]].
  unfold swap_table. rewrite map_map. cbn [fst snd].
  f_equal. apply strict_sorted_unique; trivial.
  intros x. rewrite Hin, Hin'. tauto.
Qed.

Lemma swap_table_length (T : Table) : length (swap_table T) = length T.
Proof. apply length_map. Qed.

Lemma col_sum_a_swap (T : Table) : col_sum_a (swap_table T) = col_sum_b T.
Proof.
  unfold col_sum_a, col_sum_b, swap_table. now rewrite map_map.
Qed.

Lemma col_sum_b_swap (T : Table) : col_sum_b (swap_table T) = col_sum_a T.
Proof.
  unfold col_sum_a, col_sum_b, swap_table. now rewrite map_map.
Qed.

Lemma table_total_swap (T : Table) : table_total (swap_table T) = table_total T.
Proof.
  unfold table_total. rewrite col_sum_a_swap, col_sum_b_swap. apply Nat.add_comm.
Qed.

Lemma sum_from (l : list Qc) (acc : Qc) :
  fold_left Qcplus l acc = acc + sum l.
Proof.
  unfold sum. revert acc. induction l as [| x l IH]; intros acc; cbn.
  - ring.
  - rewrite (IH (acc + x)), (IH (0 + x)). ring.
Qed.

Lemma expected_freq_swap (T : Table) :
  expected_freq (swap_table T)
  = map (fun c => (snd c, fst c)) (expected_freq T).
Proof.
  unfold expected_freq, row_sums.
  rewrite table_total_swap, col_sum_a_swap, col_sum_b_swap.
  unfold swap_table. rewrite !map_map. apply map_ext. intros [x y].
  cbn [fst snd]. now rewrite (Nat.add_comm y x).
Qed.

Section ChiSwap.

Context {L : NumLib}.

(** X2.  Exchanging the two groups exchanges the two columns of the
    contingency table, row by row, and with them the expected frequencies
    that [chi2_contingency] computes; on two non-empty samples the
    statistic of the test is finite and not negative. *)
Theorem chi_squared_table_swap (a b : list Qc) (alpha c : Qc) :
  contingency_table_of b a = swap_table (contingency_table_of a b)
  /\ expected_freq (contingency_table_of b a)
     = map (fun e => (snd e, fst e)) (expected_freq (contingency_table_of a b))
  /\ (a <> [] -> b <> [] ->
      exists r x,
        chi_squared_test a b alpha c = Ok r
        /\ test_statistic r = Fin x /\ 0 <= x).
Proof.
  split; [apply contingency_table_swap |].
  split; [rewrite contingency_table_swap; apply expected_freq_swap |].
  intros Ha Hb.
  exists (chi_squared_result a b alpha), (chi2_value (contingency_table_of a b)).
  split; [now apply chi_squared_test_nonempty |].
  split; [reflexivity |].
  apply chi2_value_nonneg. now apply contingency_populated.
Qed.

End ChiSwap.

(** X3.  The columns of the contingency table add up to the sizes of the two
    groups, so its grand total is the number of observations. *)
Theorem contingency_table_totals (a b : list Qc) :
  col_sum_a (contingency_table_of a b) = length a
  /\ col_sum_b (contingency_table_of a b) = length b
  /\ table_total (contingency_table_of a b) = (length a + length b)%nat.
Proof.
  unfold table_total.
  rewrite contingency_col_sum_a, contingency_col_sum_b. auto.
Qed.

(* ================================================================== *)
(** ** The classification looks at the set of values only *)

Lemma distinct_values_same (d d' : list Qc) (n : nat) :
  (forall x, In x d <-> In x d') -> distinct_values d n -> distinct_values d' n.
Proof.
  intros H [l [Hl [Hin Hn]]]. exists l. split; [assumption |].
  split; [| assumption]. intros x. now rewrite Hin.
Qed.

Lemma few_integers_same (d d' : list Qc) :
  (forall x, In x d <-> In x d') -> few_integers d -> few_integers d'.
Proof.
  intros H [[n [Hn Hle]] Hi]. split.
  - exists n. split; [eapply distinct_values_same; eassumption | assumption].
  - intros x Hx. apply Hi. now apply H.
Qed.

Lemma zero_or_one_same (d d' : list Qc) :
  (forall x, In x d <-> In x d') -> zero_or_one d -> zero_or_one d'.
Proof. intros H Hd x Hx. apply Hd. now apply H. Qed.

(** X4.  Two samples with the same values, in whatever order and however
    often repeated, get the same classification. *)
Theorem detect_data_type_same_values (data data' : list Qc) :
  (forall x, In x data <-> In x data') ->
  detect_data_type data = detect_data_type data'.
Proof.
  intros H.
  assert (H' : forall x, In x data' <-> In x data) by (intros x; now rewrite H).
  destruct (detect_data_type data) eqn:E; symmetry.
  - apply detect_continuous in E. apply detect_continuous.
    destruct E as [E1 E2]. split; intros F; [apply E1 | apply E2].
    + eapply zero_or_one_same; eassumption.
    + eapply few_integers_same; eassumption.
  - apply detect_binary in E. apply detect_binary.
    eapply zero_or_one_same; eassumption.
  - apply detect_categorical in E. apply detect_categorical.
    destruct E as [E1 E2]. split.
    + intros F. apply E1. eapply zero_or_one_same; eassumption.
    + eapply few_integers_same; eassumption.
Qed.

(* ================================================================== *)
(** ** Direct calls of the tests on short samples *)

Lemma np_mean_empty : np_mean [] = NaN.
Proof. reflexivity. Qed.

Lemma np_var_empty : np_var [] = NaN.
Proof. reflexivity. Qed.

Lemma np_var_short (data : list Qc) : (length data < 2)%nat -> np_var data = NaN.
Proof.
  destruct data as [| x [| y data]]; cbn [length]; intros H; try lia.
  - apply np_var_empty.
  - apply np_var_singleton.
Qed.

Section ShortSamples.

Context {L : NumLib}.

(** X5.  [mean] is [nan] on the empty sample and the arithmetic mean on any
    other; [variance] and [standard_deviation] are [nan] on fewer than two
    observations, and [variance] is the sample variance from two on.  None of
    them raises. *)
Theorem descriptive_statistics_edges (data : list Qc) :
  (data = [] -> mean data = NaN)
  /\ (data <> [] -> mean data = Fin (sample_mean data))
  /\ ((length data < 2)%nat ->
      variance data = NaN /\ standard_deviation data = NaN)
  /\ ((2 <= length data)%nat -> variance data = Fin (sample_variance data)).
Proof.
  unfold mean, variance, standard_deviation.
  split; [now intros -> |].
  split; [apply np_mean_Fin |].
  split; [| apply np_var_Fin].
  intros H. now rewrite (np_var_short data H).
Qed.

(** X6.  Called with a group of fewer than two observations, the Welch test
    raises nothing and returns a result whose statistic, effect size and
    interval ends are [nan]. *)
Theorem welch_t_test_short_group (a b : list Qc) (alpha c : Qc) :
  (length a < 2)%nat \/ (length b < 2)%nat ->
  exists r,
    welch_t_test a b alpha c = Ok r
    /\ test_statistic r = NaN /\ effect_size r = NaN
    /\ lower (confidence_interval r) = NaN
    /\ upper (confidence_interval r) = NaN.
Proof.
  intros H. eexists. split; [reflexivity |].
  cbn [test_statistic effect_size confidence_interval lower upper].
  destruct H as [H | H]; rewrite (np_var_short _ H); unfold nsub;
    autorewrite with nan; repeat split.
Qed.

(** X7.  Called with an empty group, the chi-squared test raises
    [ValueError]: for want of data when both groups are empty, for a zero
    expected frequency when one is. *)
Theorem chi_squared_test_empty_group (a b : list Qc) (alpha c : Qc) :
  a = [] \/ b = [] ->
  exists msg, chi_squared_test a b alpha c = Raise (ValueError msg).
Proof.
  intros H. unfold chi_squared_test, chi2_contingency.
  destruct (contingency_table_of a b) as [| row T] eqn:ET.
  - eexists. reflexivity.
  - assert (Hz : has_zero (expected_freq (row :: T)) = true).
    { pose proof (contingency_col_sum_a a b) as Ca.
      pose proof (contingency_col_sum_b a b) as Cb.
      rewrite ET in Ca, Cb.
      assert (Hpos : (1 <= table_total (row :: T))%nat).
      { unfold table_total, col_sum_a, col_sum_b. cbn [map fold_right].
        pose proof (contingency_values a b) as [_ [Hin E]].
        rewrite ET in E.
        destruct (sorted (py_set (a ++ b))) as [| v vs]; [discriminate |].
        cbn [map] in E. injection E as -> _.
        assert (Hv : In v a \/ In v b) by (apply Hin; now left).
        cbn [fst snd].
        destruct Hv as [Hv | Hv]; apply count_In in Hv; lia. }
      rewrite (expected_freq_fin _ Hpos).
      unfold has_zero, fin_cells, expected_counts. cbn [map existsb fst snd neqb].
      apply orb_true_iff. left. apply orb_true_iff.
      destruct H as [-> | ->]; [left | right]; apply Qc_eqb_eq.
      - rewrite Ca. cbn [length]. change (QcN 0) with 0.
        unfold Qcdiv. ring.
      - rewrite Cb. cbn [length]. change (QcN 0) with 0.
        unfold Qcdiv. ring. }
    rewrite Hz. eexists. reflexivity.
Qed.

End ShortSamples.

(* ================================================================== *)
(** ** The z-test: exchanged groups and degenerate proportions *)

Lemma nneg_nadd (x y : num) : nneg (nadd x y) = nadd (nneg x) (nneg y).
Proof.
  destruct x, y; cbn; trivial. f_equal. ring.
Qed.

Lemma nneg_involutive (x : num) : nneg (nneg x) = x.
Proof.
  destruct x; cbn; trivial. f_equal. ring.
Qed.

Section ZTestMore.

Context {L : NumLib}.

Lemma pooled_se_swap (a b : list Qc) : pooled_se b a = pooled_se a b.
Proof.
  unfold pooled_se, p_pooled.
  rewrite (Qcplus_comm (sum b)), (Qcplus_comm (QcN (length b))).
  now rewrite (Qcplus_comm (1 / QcN (length b))).
Qed.

Lemma unpooled_se_swap (a b : list Qc) : unpooled_se b a = unpooled_se a b.
Proof.
  unfold unpooled_se, pA, pB. now rewrite Qcplus_comm.
Qed.

Lemma z_statistic_swap (a b : list Qc) :
  z_statistic b a = nneg (z_statistic a b).
Proof.
  unfold z_statistic. rewrite pooled_se_swap, <- ndiv_nneg.
  unfold pA, pB. cbn [nneg]. do 2 f_equal. ring.
Qed.

(** X8.  On two non-empty samples, running the z-test on (B, A) instead of
    (A, B) negates the statistic and the effect size, mirrors the confidence
    interval about zero, and leaves the p-value unchanged. *)
Theorem two_proportion_z_test_swap (a b : list Qc) (alpha c : Qc) :
  a <> [] -> b <> [] ->
  exists r_ab r_ba,
    two_proportion_z_test a b alpha c = Ok r_ab
    /\ two_proportion_z_test b a alpha c = Ok r_ba
    /\ test_statistic r_ba = nneg (test_statistic r_ab)
    /\ effect_size r_ba = nneg (effect_size r_ab)
    /\ lower (confidence_interval r_ba) = nneg (upper (confidence_interval r_ab))
    /\ upper (confidence_interval r_ba) = nneg (lower (confidence_interval r_ab))
    /\ p_value r_ba = p_value r_ab.
Proof.
  intros Ha Hb.
  exists (z_test_result a b alpha c), (z_test_result b a alpha c).
  split; [now apply two_proportion_z_test_nonempty |].
  split; [now apply two_proportion_z_test_nonempty |].
  unfold z_test_result.
  cbn [test_statistic effect_size confidence_interval lower upper p_value].
  assert (D : Fin (pA b - pB a) = nneg (Fin (pA a - pB b))).
  { unfold pA, pB. cbn [nneg]. f_equal. ring. }
  rewrite unpooled_se_swap, D.
  split; [apply z_statistic_swap |].
  split; [reflexivity |].
  split; [unfold nsub; now rewrite nneg_nadd |].
  split; [unfold nsub; now rewrite nneg_nadd, nneg_involutive |].
  unfold two_tailed_normal. now rewrite z_statistic_swap, nabs_nneg.
Qed.

(** X9.  When neither group holds a conversion, or both hold nothing else,
    the pooled standard error is [sqrt 0] and the z-test divides zero by it:
    with [np.sqrt(0) = 0] the returned statistic is [nan], and no error is
    raised. *)
Theorem two_proportion_z_test_degenerate (a b : list Qc) (alpha c : Qc) :
  a <> [] -> b <> [] -> np_sqrt 0 = 0 ->
  (sum a = 0 /\ sum b = 0)
  \/ (sum a = QcN (length a) /\ sum b = QcN (length b)) ->
  exists r,
    two_proportion_z_test a b alpha c = Ok r /\ test_statistic r = NaN.
Proof.
  intros Ha Hb Hsqrt H. exists (z_test_result a b alpha c).
  split; [now apply two_proportion_z_test_nonempty |].
  pose proof (length_QcN_nonzero Ha) as Na.
  pose proof (length_QcN_nonzero Hb) as Nb.
  pose proof (length_QcN_sum_nonzero b Ha) as Nab.
  cbn [z_test_result test_statistic].
  unfold z_statistic, pooled_se, p_pooled, pA, pB.
  assert (E : (sum a + sum b) / (QcN (length a) + QcN (length b))
              * (1 - (sum a + sum b) / (QcN (length a) + QcN (length b)))
              * (1 / QcN (length a) + 1 / QcN (length b)) = 0
              /\ sum a / QcN (length a) - sum b / QcN (length b) = 0).
  { destruct H as [[-> ->] | [-> ->]]; split; now field. }
  destruct E as [-> ->].
  unfold nsqrt. cbn [Qc_ltb Qccompare]. rewrite Hsqrt. reflexivity.
Qed.

End ZTestMore.


(* ================================================================== *)
(** ** Conversion counts as 0/1 samples *)

Lemma sum_app (l1 l2 : list Qc) : sum (l1 ++ l2) = sum l1 + sum l2.
Proof.
  unfold sum at 1. rewrite fold_left_app. fold (sum l1). apply sum_from.
Qed.

Lemma sum_repeat (x : Qc) (n : nat) : sum (repeat x n) = QcN n * x.
Proof.
  induction n as [| n IH].
  - cbn. change (QcN 0) with 0. ring.
  - change (repeat x (S n)) with ([x] ++ repeat x n)%list.
    rewrite sum_app, IH. replace (S n) with (1 + n)%nat by reflexivity.
    rewrite QcN_add. change (QcN 1) with 1. unfold sum. cbn. ring.
Qed.

Lemma ones_zeros_sum (n m : nat) : sum (repeat 1 n ++ repeat 0 m) = QcN n.
Proof. rewrite sum_app, !sum_repeat. ring. Qed.


Lemma dict_has_item {V : Type} (d : dict V) (key : string) :
  dict_has d key = true -> exists v, dict_get d key = Some v.
Proof.
  unfold dict_has. destruct (dict_get d key) as [v |]; [| discriminate].
  intros _. now exists v.
Qed.

Open Scope string_scope.


(** X12.  When a dictionary lacks ['continuous_values'] and the first one has
    no ['conversions'], the conversion raises [KeyError('conversions')]; when
    its ['conversions'] is not an integer, it raises [TypeError]. *)
Theorem convert_needs_counts (a b : dict pyval) :
  dict_has a "continuous_values" && dict_has b "continuous_values" = false ->
  (dict_get a "conversions" = None ->
   convert_ab_test_data_to_analyzer_format a b = Fail (KeyError "conversions"))
  /\ (forall v, dict_get a "conversions" = Some v ->
                (forall z, v <> PyInt z) ->
                convert_ab_test_data_to_analyzer_format a b = Fail TypeError).
Proof.
  intros Hk. unfold convert_ab_test_data_to_analyzer_format. rewrite Hk.
  unfold expand_conversions, item. split.
  - intros ->. reflexivity.
  - intros v -> Hv. destruct v; try reflexivity. now contradiction (Hv z).
Qed.

Close Scope string_scope.

(* ================================================================== *)
(** ** The Welch test on samples without spread *)

Lemma sample_mean_repeat (x : Qc) (n : nat) :
  n <> 0%nat -> sample_mean (repeat x n) = x.
Proof.
  intros Hn. unfold sample_mean. rewrite sum_repeat, repeat_length.
  assert (N : QcN n <> 0) by (rewrite QcN_eq_0; lia).
  now field.
Qed.

Lemma sample_variance_repeat (x : Qc) (n : nat) :
  n <> 0%nat -> sample_variance (repeat x n) = 0.
Proof.
  intros Hn. unfold sample_variance.
  rewrite (sample_mean_repeat x Hn), map_repeat, sum_repeat.
  unfold Qcdiv. simpl. ring.
Qed.

Section WelchMore.

Context {L : NumLib}.

(** X10.  Take two constant samples of at least two observations each, the
    values binary fractions [za / 2^ka] and [zb / 2^kb] whose multiples up to
    the sample sizes stay below [2^53] in numerator (so every sum the test
    forms is a 64-bit float, and means and variances carry no rounding).
    Both variances are 0 and the Welch test divides by [sqrt 0]: with
    [np.sqrt(0) = 0] the statistic and Cohen's d are the infinity of the sign
    of [meanA - meanB] ([nan] when the two values agree) and the degrees of
    freedom are [nan]; no error is raised. *)
Theorem welch_t_test_zero_variance
    (za zb : Z) (ka kb na nb : nat) (alpha c : Qc) :
  (2 <= na)%nat -> (2 <= nb)%nat -> np_sqrt 0 = 0 ->
  (Z.abs za * Z.of_nat na < 2 ^ 53)%Z -> (ka <= 64)%nat ->
  (Z.abs zb * Z.of_nat nb < 2 ^ 53)%Z -> (kb <= 64)%nat ->
  let x := binary_fraction za ka in
  let y := binary_fraction zb kb in
  let a := repeat x na in
  let b := repeat y nb in
  sample_mean a = x /\ sample_mean b = y
  /\ sample_variance a = 0 /\ sample_variance b = 0
  /\ exists r,
      welch_t_test a b alpha c = Ok r
      /\ test_statistic r = inf_signed (x - y)
      /\ effect_size r = inf_signed (x - y)
      /\ welch_df (np_var a) (np_var b) (Z.of_nat na) (Z.of_nat nb) = NaN.
Proof.
  intros Hna Hnb Hsqrt _ _ _ _ x y a b.
  assert (La : length a = na) by apply repeat_length.
  assert (Lb : length b = nb) by apply repeat_length.
  assert (Ha : (2 <= length a)%nat) by now rewrite La.
  assert (Hb : (2 <= length b)%nat) by now rewrite Lb.
  assert (Ma : sample_mean a = x) by (apply sample_mean_repeat; lia).
  assert (Mb : sample_mean b = y) by (apply sample_mean_repeat; lia).
  assert (Va : sample_variance a = 0) by (apply sample_variance_repeat; lia).
  assert (Vb : sample_variance b = 0) by (apply sample_variance_repeat; lia).
  split; [exact Ma |]. split; [exact Mb |].
  split; [exact Va |]. split; [exact Vb |].
  exists (welch_result a b alpha c).
  split; [now apply welch_t_test_Fin |].
  rewrite <- La, <- Lb.
  rewrite (np_var_Fin a Ha), (np_var_Fin b Hb), welch_df_Fin by assumption.
  cbn [welch_result test_statistic effect_size].
  unfold welch_t, welch_se, cohens_d, pooled_sd, welch_satterthwaite.
  rewrite Va, Vb, Ma, Mb.
  replace (0 / QcN (length a) + 0 / QcN (length b)) with 0
    by (unfold Qcdiv; ring).
  replace (((QcN (length a) - 1) * 0 + (QcN (length b) - 1) * 0)
           / (QcN (length a) + QcN (length b) - two)) with 0
    by (unfold Qcdiv; ring).
  replace ((0 / QcN (length a)) ^ 2 / (QcN (length a) - 1)
           + (0 / QcN (length b)) ^ 2 / (QcN (length b) - 1)) with 0
    by (unfold Qcdiv; simpl; ring).
  unfold nsqrt. cbn [Qc_ltb Qccompare]. rewrite Hsqrt.
  repeat split.
Qed.

End WelchMore.

(* ================================================================== *)
(** ** Descriptive metrics of a sample *)

Lemma insert_sorted_le (x : Qc) (l : list Qc) :
  StronglySorted Qcle l -> StronglySorted Qcle (insert_sorted x l).
Proof.
  induction 1 as [| y l Hl IH Hy]; cbn.
  - constructor; constructor.
  - destruct (Qc_leb x y) eqn:E.
    + apply Qc_leb_le in E. constructor; [now constructor |].
      constructor; [assumption |].
      eapply Forall_impl; [| exact Hy].
      intros z Hz. now apply Qcle_trans with y.
    + assert (Hyx : y <= x).
      { apply Qclt_le_weak, Qcnot_le_lt. intros H.
        apply Qc_leb_le in H. congruence. }
      constructor; [assumption |].
      apply Forall_forall. intros z Hz. apply insert_sorted_In in Hz.
      destruct Hz as [-> | Hz]; [assumption |].
      rewrite Forall_forall in Hy. now apply Hy.
Qed.

Lemma sorted_le (l : list Qc) : StronglySorted Qcle (sorted l).
Proof.
  induction l as [| x l IH]; [constructor |].
  change (sorted (x :: l)) with (insert_sorted x (sorted l)).
  now apply insert_sorted_le.
Qed.

Lemma insert_sorted_length (x : Qc) (l : list Qc) :
  length (insert_sorted x l) = S (length l).
Proof.
  induction l as [| y l IH]; cbn; [reflexivity |].
  destruct (Qc_leb x y); cbn; [reflexivity | now rewrite IH].
Qed.

Lemma sorted_length (l : list Qc) : length (sorted l) = length l.
Proof.
  induction l as [| x l IH]; [reflexivity |].
  change (sorted (x :: l)) with (insert_sorted x (sorted l)).
  now rewrite insert_sorted_length, IH.
Qed.

Lemma sorted_hd_least (l : list Qc) (d : Qc) :
  StronglySorted Qcle l -> forall x, In x l -> hd d l <= x.
Proof.
  intros H x Hx. destruct H as [| y l Hl Hy]; [contradiction |]. cbn.
  destruct Hx as [-> | Hx]; [apply Qcle_refl |].
  rewrite Forall_forall in Hy. now apply Hy.
Qed.

Lemma sorted_last_greatest (l : list Qc) (d : Qc) :
  StronglySorted Qcle l -> forall x, In x l -> x <= last l d.
Proof.
  induction 1 as [| y l Hl IH Hy]; intros x Hx; [contradiction |].
  destruct l as [| z l].
  - destruct Hx as [-> | []]. apply Qcle_refl.
  - change (last (y :: z :: l) d) with (last (z :: l) d).
    destruct Hx as [-> | Hx]; [| now apply IH].
    apply Qcle_trans with z.
    + rewrite Forall_forall in Hy. apply Hy. now left.
    + apply IH. now left.
Qed.

Lemma hd_In (l : list Qc) (d : Qc) : l <> [] -> In (hd d l) l.
Proof. destruct l; [congruence | intros _; now left]. Qed.

Lemma last_In (l : list Qc) (d : Qc) : l <> [] -> In (last l d) l.
Proof.
  induction l as [| x l IH]; [congruence |]. intros _.
  destruct l as [| y l]; [now left |].
  right. apply IH. discriminate.
Qed.

Lemma In_firstn_skipn (l : list Qc) (i k : nat) (x : Qc) :
  In x (firstn k (skipn i l)) -> In x l.
Proof.
  intros H. rewrite <- (firstn_skipn i l). apply in_or_app. right.
  rewrite <- (firstn_skipn k (skipn i l)). apply in_or_app. now left.
Qed.

Lemma middle_nonempty (l : list Qc) :
  l <> [] ->
  (if Nat.odd (length l)
   then firstn 1 (skipn (length l / 2) l)
   else firstn 2 (skipn (length l / 2 - 1) l)) <> [].
Proof.
  intros Hl.
  assert (Hn : (1 <= length l)%nat) by (destruct l; [congruence | cbn; lia]).
  assert (Hh : (length l / 2 < length l)%nat)
    by (apply Nat.div_lt; lia).
  revert Hh. generalize (length l / 2)%nat. intros h Hh.
  destruct (Nat.odd (length l)); intros E; apply (f_equal (@length Qc)) in E;
    rewrite length_firstn, length_skipn in E;
    change (length (@nil Qc)) with 0%nat in E; lia.
Qed.

Section Metrics.

Context {L : NumLib}.

Lemma calculate_continuous_metrics_nonempty (data : list Qc) :
  data <> [] ->
  calculate_continuous_metrics data
  = {| metrics_mean := np_mean data;
       metrics_standard_deviation := nsqrt (np_var data);
       metrics_min := hd 0 (sorted data);
       metrics_max := last (sorted data) 0;
       metrics_median := np_median data;
       metrics_count := length data |}.
Proof. destruct data; [congruence | reflexivity]. Qed.

Lemma np_mean_one (x : Qc) : np_mean [x] = Fin x.
Proof.
  unfold np_mean, sum. cbn [length fold_left]. change (QcN 1) with 1.
  rewrite ndiv_Fin by discriminate. f_equal. field. discriminate.
Qed.

(** X13.  On a non-empty sample the metrics are those of the data: [count] is
    the number of observations, and [min] and [max] are observations that
    bound all of them.  When the number of observations is odd, [median] is
    an observation too, the middle one of the sorted data, between [min] and
    [max]. *)
Theorem continuous_metrics_bounds (data : list Qc) :
  data <> [] ->
  let m := calculate_continuous_metrics data in
  metrics_count m = length data
  /\ In (metrics_min m) data /\ In (metrics_max m) data
  /\ (forall x, In x data -> metrics_min m <= x /\ x <= metrics_max m)
  /\ (Nat.odd (length data) = true ->
      exists md,
        metrics_median m = Fin md
        /\ md = nth (length data / 2) (sorted data) 0
        /\ In md data
        /\ metrics_min m <= md /\ md <= metrics_max m).
Proof.
  intros Hd m.
  assert (Hs : sorted data <> []).
  { intros E. apply (f_equal (@length Qc)) in E.
    rewrite sorted_length in E. destruct data; [congruence | discriminate]. }
  assert (B : forall x, In x data ->
              hd 0 (sorted data) <= x /\ x <= last (sorted data) 0).
  { intros x Hx. apply sorted_In in Hx. split.
    - now apply sorted_hd_least; [apply sorted_le |].
    - now apply sorted_last_greatest; [apply sorted_le |]. }
  unfold m. rewrite (calculate_continuous_metrics_nonempty Hd).
  cbn [metrics_count metrics_min metrics_max metrics_mean metrics_median].
  split; [reflexivity |].
  split; [apply sorted_In, hd_In, Hs |].
  split; [apply sorted_In, last_In, Hs |].
  split; [exact B |].
  intros Hodd. unfold np_median. rewrite Hodd.
  assert (Hlt : (length data / 2 < length (sorted data))%nat).
  { rewrite sorted_length. apply Nat.div_lt; [| lia].
    destruct data; [congruence | cbn; lia]. }
  assert (Hm : firstn 1 (skipn (length data / 2) (sorted data))
               = [nth (length data / 2) (sorted data) 0]%list).
  { revert Hlt. generalize (length data / 2)%nat, (sorted data). clear.
    intros i l. revert i. induction l as [| x l IH]; intros i Hi.
    - cbn in Hi. lia.
    - destruct i as [| i]; [reflexivity |]. cbn [skipn nth].
      apply IH. cbn in Hi. lia. }
  rewrite Hm, np_mean_one.
  exists (nth (length data / 2) (sorted data) 0).
  split; [reflexivity |]. split; [reflexivity |].
  assert (Hin : In (nth (length data / 2) (sorted data) 0) data)
    by (apply sorted_In; now apply nth_In).
  split; [exact Hin | now apply B].
Qed.

End Metrics.

(* ================================================================== *)
(** ** The dynamic analysis and its entry point *)

Section Dynamic.

Context {L : NumLib}.

Lemma run_test_data_type (t : DataType) (a b : list Qc) (alpha c : Qc) r :
  run_test t a b alpha c = Ok r -> data_type r = t.
Proof.
  destruct t; cbn [run_test]; intros E.
  - unfold welch_t_test in E. now injection E as <-.
  - unfold two_proportion_z_test in E.
    repeat (apply bind_Ok in E; destruct E as [? [_ E]]).
    now injection E as <-.
  - unfold chi_squared_test in E.
    apply bind_Ok in E. destruct E as [[[[chi2 p] dof] expected] [_ E]].
    now injection E as <-.
Qed.

Lemma analyze_data_data_type (inputs : StatisticalInputs) r :
  analyze_data inputs = Ok r ->
  data_type r = resolve (detect_data_type (group_a inputs))
                        (detect_data_type (group_b inputs)).
Proof.
  rewrite analyze_data_run. apply run_test_data_type.
Qed.

Lemma continuous_nonempty (data : list Qc) :
  detect_data_type data = continuous -> data <> [].
Proof. intros H ->. discriminate H. Qed.

(** X14.  [analyze_dynamic_ab_test] fails exactly as [analyze_data] does and
    otherwise returns its result unchanged; it attaches the metrics of the
    two groups exactly when both groups classify as continuous, and then the
    groups are not empty: each count is the group's size and at least 1. *)
Theorem analyze_dynamic_ab_test_metrics (inputs : StatisticalInputs) :
  (forall e, analyze_data inputs = Raise e ->
             analyze_dynamic_ab_test inputs = Raise e)
  /\ (forall r, analyze_data inputs = Ok r ->
        exists d,
          analyze_dynamic_ab_test inputs = Ok d
          /\ base_result d = r
          /\ (continuous_metrics d <> None
              <-> detect_data_type (group_a inputs) = continuous
                  /\ detect_data_type (group_b inputs) = continuous)
          /\ (forall ma mb, continuous_metrics d = Some (ma, mb) ->
                metrics_count ma = length (group_a inputs)
                /\ metrics_count mb = length (group_b inputs)
                /\ (1 <= metrics_count ma)%nat
                /\ (1 <= metrics_count mb)%nat)).
Proof.
  unfold analyze_dynamic_ab_test. split.
  - intros e ->. reflexivity.
  - intros r E. rewrite E. cbn [bind].
    pose proof (analyze_data_data_type inputs E) as Ht.
    destruct (DataType_eqb (data_type r) continuous) eqn:Ec.
    + assert (Hc : data_type r = continuous)
        by (destruct (data_type r); (reflexivity || discriminate)).
      rewrite Hc in Ht. symmetry in Ht. apply resolve_continuous in Ht.
      destruct Ht as [Ca Cb].
      eexists. split; [reflexivity |]. split; [reflexivity |].
      cbn [continuous_metrics]. split; [split; [auto | discriminate] |].
      intros ma mb Hm. injection Hm as <- <-.
      pose proof (continuous_nonempty Ca) as Na.
      pose proof (continuous_nonempty Cb) as Nb.
      rewrite (calculate_continuous_metrics_nonempty Na),
        (calculate_continuous_metrics_nonempty Nb).
      cbn [metrics_count].
      destruct (group_a inputs); [congruence |].
      destruct (group_b inputs); [congruence |].
      cbn [length]. repeat split; lia.
    + eexists. split; [reflexivity |]. split; [reflexivity |].
      cbn [continuous_metrics]. split; [split |].
      * intros H. now contradiction H.
      * intros H. apply resolve_continuous in H. rewrite <- Ht in H.
        rewrite H in Ec. discriminate.
      * intros ma mb H. discriminate.
Qed.

Open Scope string_scope.

(** X15.  [perform_dynamic_check] never expands the conversion counts: it
    always hands ['continuous_values'] on, [None] when the key is missing.
    With two variants that hold counts and complete parameters, the call
    raises [TypeError] as soon as one of the two has no list there. *)
Theorem perform_dynamic_check_needs_lists
    (control variant : dict pyval) (rest : list (dict pyval))
    (params : dict Qc) (cc cv vc vv : pyval) (alpha pw cl : Qc) :
  dict_get control "conversions" = Some cc ->
  dict_get control "visitors" = Some cv ->
  dict_get variant "conversions" = Some vc ->
  dict_get variant "visitors" = Some vv ->
  dict_get params "significance_level" = Some alpha ->
  dict_get params "power" = Some pw ->
  dict_get params "confidence_level" = Some cl ->
  (forall l, get_or_none control "continuous_values" <> PyList l)
  \/ (forall l, get_or_none variant "continuous_values" <> PyList l) ->
  perform_dynamic_check (control :: variant :: rest) params = Fail TypeError.
Proof.
  intros C1 C2 V1 V2 P1 P2 P3 H.
  unfold perform_dynamic_check. cbn [length Nat.ltb Nat.leb nth].
  unfold item at 1 2 3 4. rewrite C1, C2, V1, V2. cbn [attempt_bind].
  unfold convert_ab_test_data_to_analyzer_format. cbn.
  unfold item. rewrite P1, P2, P3. cbn [attempt_bind].
  destruct H as [H | H].
  - destruct (get_or_none control "continuous_values") as [| | | l];
      try reflexivity. now contradiction (H l).
  - destruct (get_or_none control "continuous_values") as [| | | l];
      try reflexivity. cbn [as_sample attempt_bind].
    destruct (get_or_none variant "continuous_values") as [| | | l'];
      try reflexivity. now contradiction (H l').
Qed.

(** X16.  With fewer than two variants [perform_dynamic_check] raises
    [ValueError].  With two variants that hold counts and lists of values,
    and complete parameters, its result is the dynamic analysis of the two
    lists at the given levels, whatever the counts are. *)
Theorem perform_dynamic_check_analyzes_lists
    (control variant : dict pyval) (rest : list (dict pyval))
    (params : dict Qc) (cc cv vc vv : pyval) (la lb : list Qc)
    (alpha pw cl : Qc) :
  (perform_dynamic_check [] params
   = Fail (Analyzer (ValueError "Need at least 2 variants for comparison"))
   /\ perform_dynamic_check [control] params
      = Fail (Analyzer (ValueError "Need at least 2 variants for comparison")))
  /\ (dict_get control "conversions" = Some cc ->
      dict_get control "visitors" = Some cv ->
      dict_get variant "conversions" = Some vc ->
      dict_get variant "visitors" = Some vv ->
      dict_get control "continuous_values" = Some (PyList la) ->
      dict_get variant "continuous_values" = Some (PyList lb) ->
      dict_get params "significance_level" = Some alpha ->
      dict_get params "power" = Some pw ->
      dict_get params "confidence_level" = Some cl ->
      perform_dynamic_check (control :: variant :: rest) params
      = lift (analyze_dynamic_ab_test
                {| group_a := la; group_b := lb;
                   significance_level := alpha; power := pw;
                   confidence_level := cl |})).
Proof.
  split; [split; reflexivity |].
  intros C1 C2 V1 V2 C3 V3 P1 P2 P3.
  unfold perform_dynamic_check. cbn [length Nat.ltb Nat.leb nth].
  unfold item at 1 2 3 4. rewrite C1, C2, V1, V2. cbn [attempt_bind].
  unfold get_or_none. rewrite C3, V3.
  unfold convert_ab_test_data_to_analyzer_format. cbn.
  unfold item. rewrite P1, P2, P3. reflexivity.
Qed.

Close Scope string_scope.

End Dynamic.

(* ================================================================== *)
(** ** Planning: test duration and confidence interval of a proportion *)

Lemma py_int_ceil (a : Qc) : py_int (np_ceil (Fin a)) = Done (Qceiling a).
Proof.
  cbn [np_ceil py_int]. rewrite QcZ_this, Qceiling_Z, Qfloor_Z.
  now destruct (Qc_ltb _ _).
Qed.

Lemma Qc_le_ceiling (a : Qc) : a <= QcZ (Qceiling a).
Proof. unfold Qcle. rewrite QcZ_this. apply Qle_ceiling. Qed.

Lemma Qc_ceiling_lt (a : Qc) : QcZ (Qceiling a - 1) < a.
Proof. unfold Qclt. rewrite QcZ_this. apply Qceiling_lt. Qed.

Section Planning.

Context {L : NumLib}.

(** X17.  With no traffic the duration raises [ZeroDivisionError].  With
    positive traffic, a sample size that is not negative, and both
    [2 * sample_size] and the traffic below [2^53] (where the quotient of the
    two integers, rounded to a 64-bit float, has the ceiling of the exact
    quotient), the duration is the least number of days whose traffic covers
    twice the sample size:
    [(d - 1) * traffic < 2 * sample_size <= d * traffic]. *)
Theorem calculate_test_duration_least (sample_size traffic_per_day : Z) :
  (traffic_per_day = 0%Z ->
   Statistics.calculate_test_duration sample_size traffic_per_day
   = Fail (Analyzer ZeroDivisionError))
  /\ ((0 <= sample_size)%Z -> (sample_size * 2 < 2 ^ 53)%Z ->
      (0 < traffic_per_day < 2 ^ 53)%Z ->
      exists d,
        Statistics.calculate_test_duration sample_size traffic_per_day = Done d
        /\ ((d - 1) * traffic_per_day < sample_size * 2)%Z
        /\ (sample_size * 2 <= d * traffic_per_day)%Z).
Proof.
  unfold Statistics.calculate_test_duration. split.
  - intros ->. reflexivity.
  - intros _ _ [Ht _].
    assert (Nt : QcZ traffic_per_day <> 0) by (rewrite QcZ_eq_0; lia).
    assert (Pt : 0 < QcZ traffic_per_day)
      by (rewrite <- QcZ_0; apply (proj1 (QcZ_lt _ _)); lia).
    rewrite (py_div_Ok _ Nt). cbn [lift attempt_bind].
    rewrite py_int_ceil.
    set (x := QcZ (sample_size * 2) / QcZ traffic_per_day).
    assert (Ex : x * QcZ traffic_per_day = QcZ (sample_size * 2))
      by (unfold x; now field).
    exists (Qceiling x). split; [reflexivity |]. split.
    + apply (proj2 (QcZ_lt _ _)).
      rewrite (QcZ_mul (Qceiling x - 1) traffic_per_day), <- Ex.
      apply Qcmult_lt_compat_r; [assumption | apply Qc_ceiling_lt].
    + apply (proj2 (QcZ_le _ _)).
      rewrite (QcZ_mul (Qceiling x) traffic_per_day), <- Ex.
      apply Qcmult_le_compat_r;
        [apply Qc_le_ceiling | now apply Qclt_le_weak].
Qed.







End Planning.

(* ================================================================== *)
(** ** The summary z-test and the sample size *)

Lemma py_div_Raise (a b : Qc) (e : exn) :
  py_div a b = Raise e -> b = 0 /\ e = ZeroDivisionError.
Proof.
  unfold py_div. destruct (Qc_eqb b 0) eqn:E; [| discriminate].
  intros H. injection H as <-. split; [now apply Qc_eqb_eq | reflexivity].
Qed.

Lemma counts_as_sample (x n : Z) :
  (0 <= x <= n)%Z ->
  let g := (repeat 1 (Z.to_nat x) ++ repeat 0 (Z.to_nat (n - x)))%list in
  sum g = QcZ x /\ QcN (length g) = QcZ n.
Proof.
  intros H g. unfold g. split.
  - rewrite ones_zeros_sum, QcN_Z. f_equal. lia.
  - rewrite QcN_Z, length_app, !repeat_length. f_equal. lia.
Qed.

Lemma ndiv_by_zero (x : num) :
  ndiv x (Fin 0) = PInf \/ ndiv x (Fin 0) = NInf \/ ndiv x (Fin 0) = NaN.
Proof.
  destruct x as [a | | |]; cbn; auto.
  unfold inf_signed. destruct (a ?= 0); auto.
Qed.

Section Summary.

Context {L : NumLib}.

Open Scope string_scope.


(** X20.  For counts with [0 <= x <= n] and [n > 0] in both arms, the
    two-tailed summary z-test and the analyzer's z-test on the 0/1 samples
    built from the same counts report the same p-value; the summary counts
    the two samples' observations. *)
Theorem summary_z_test_agrees (x1 n1 x2 n2 : Z) (alpha c : Qc) :
  (0 <= x1 <= n1)%Z -> (0 <= x2 <= n2)%Z -> (0 < n1)%Z -> (0 < n2)%Z ->
  let A := (repeat 1 (Z.to_nat x1) ++ repeat 0 (Z.to_nat (n1 - x1)))%list in
  let B := (repeat 1 (Z.to_nat x2) ++ repeat 0 (Z.to_nat (n2 - x2)))%list in
  exists s r,
    Statistics.two_proportion_z_test x1 n1 x2 n2 "two-tailed" = Ok s
    /\ two_proportion_z_test A B alpha c = Ok r
    /\ Statistics.p_value s = p_value r
    /\ Statistics.sample_size s = Z.of_nat (length A + length B).
Proof.
  intros Hx1 Hx2 Hn1 Hn2 A B.
  destruct (counts_as_sample Hx1) as [SA LA]. fold A in SA, LA.
  destruct (counts_as_sample Hx2) as [SB LB]. fold B in SB, LB.
  assert (NA : A <> []).
  { intros E. rewrite E in LA. symmetry in LA. apply QcZ_eq_0 in LA. lia. }
  assert (NB : B <> []).
  { intros E. rewrite E in LB. symmetry in LB. apply QcZ_eq_0 in LB. lia. }
  unfold Statistics.two_proportion_z_test.
  assert (N1 : QcZ n1 <> 0) by (rewrite QcZ_eq_0; lia).
  assert (N2 : QcZ n2 <> 0) by (rewrite QcZ_eq_0; lia).
  assert (N12 : QcZ (n1 + n2) <> 0) by (rewrite QcZ_eq_0; lia).
  rewrite (py_div_Ok _ N1). cbn [bind].
  rewrite (py_div_Ok _ N2). cbn [bind].
  rewrite (py_div_Ok _ N12). cbn [bind].
  rewrite (py_div_Ok _ N1). cbn [bind].
  rewrite (py_div_Ok _ N2). cbn [bind].
  rewrite (py_div_Ok _ N1). cbn [bind].
  rewrite (py_div_Ok _ N2). cbn [bind].
  eexists. exists (z_test_result A B alpha c).
  split; [reflexivity |].
  split; [now apply two_proportion_z_test_nonempty |].
  cbn [Statistics.p_value Statistics.sample_size z_test_result p_value
       String.eqb Ascii.eqb Bool.eqb].
  split.
  - assert (E : ndiv (Fin (QcZ x2 / QcZ n2 - QcZ x1 / QcZ n1))
                     (nsqrt (Fin (QcZ (x1 + x2) / QcZ (n1 + n2)
                                  * (1 - QcZ (x1 + x2) / QcZ (n1 + n2))
                                  * (1 / QcZ n1 + 1 / QcZ n2))))
                = nneg (z_statistic A B)).
    { unfold z_statistic. rewrite <- ndiv_nneg.
      unfold pooled_se, p_pooled, pA, pB.
      rewrite SA, SB, LA, LB, !QcZ_add. cbn [nneg]. do 2 f_equal. ring. }
    rewrite E. unfold two_tailed_normal. now rewrite nabs_nneg.
  - rewrite Nat2Z.inj_add.
    apply QcZ_inj. rewrite !QcZ_add, <- !QcN_Z, LA, LB. reflexivity.
Qed.

(** X21.  The sample size does not depend on the order of the two rates,
    and for two equal rates no size is returned: the quotient by the zero
    effect is not a finite number, and its conversion to an integer raises
    [OverflowError] or [ValueError]. *)
Theorem calculate_sample_size_rates (p1 p2 alpha beta : Qc) (tail_type : string) :
  Statistics.calculate_sample_size p2 p1 alpha beta tail_type
  = Statistics.calculate_sample_size p1 p2 alpha beta tail_type
  /\ exists e,
      Statistics.calculate_sample_size p1 p1 alpha beta tail_type = Fail e
      /\ (e = OverflowError \/ exists msg, e = Analyzer (ValueError msg)).
Proof.
  unfold Statistics.calculate_sample_size. split.
  - rewrite (Qcplus_comm p2 p1), (Qcabs_Qcminus p1 p2).
    now rewrite (Qcplus_comm (p2 * (1 - p2))).
  - replace (Qcabs (p1 - p1) ^ 2) with 0.
    + set (x := nsq _).
      destruct (ndiv_by_zero x) as [-> | [-> | ->]];
        eexists; (split; [reflexivity | eauto]).
    + replace (p1 - p1) with 0 by ring. reflexivity.
Qed.

Close Scope string_scope.

End Summary.

(* ================================================================== *)
(** ** The further properties at concrete inputs *)

Lemma sqrt_6dp_zero : sqrt_6dp 0 = 0.
Proof. apply Qc_is_canon. vm_compute. reflexivity. Qed.

Lemma analyze_data_well_formed_witness :
  exists r,
    analyze_data (L := example_lib) singleton_inputs = Ok r
    /\ test_type r = matching_test (data_type r).
Proof.
  eexists. split; [reflexivity |].
  exact (proj1 (@analyze_data_well_formed example_lib singleton_inputs _
                  eq_refl)).
Defined.

Lemma chi_squared_table_swap_witness :
  three_valued_a <> [] /\ three_valued_b <> []
  /\ contingency_table_of three_valued_b three_valued_a
     = [(2, 2); (0, 2); (3, 1)]%nat%list
  /\ exists r x,
      chi_squared_test (L := example_lib) three_valued_a three_valued_b
        (q 5 100) (q 95 100) = Ok r
      /\ test_statistic r = Fin x /\ 0 <= x.
Proof.
  assert (Ha : three_valued_a <> []) by discriminate.
  assert (Hb : three_valued_b <> []) by discriminate.
  split; [exact Ha |]. split; [exact Hb |].
  destruct (@chi_squared_table_swap example_lib three_valued_a three_valued_b
              (q 5 100) (q 95 100)) as [E [_ H]].
  split; [exact E | exact (H Ha Hb)].
Defined.

Lemma detect_data_type_same_values_witness :
  (forall x, In x two_valued_a <-> In x two_valued_b)
  /\ detect_data_type two_valued_a = detect_data_type two_valued_b.
Proof.
  assert (H : forall x, In x two_valued_a <-> In x two_valued_b).
  { intros x. unfold two_valued_a, two_valued_b. cbn. tauto. }
  split; [exact H | exact (@detect_data_type_same_values _ _ H)].
Defined.

Lemma descriptive_statistics_edges_witness :
  (length [q 5 2] < 2)%nat
  /\ variance [q 5 2] = NaN
  /\ standard_deviation (L := example_lib) [q 5 2] = NaN.
Proof.
  assert (H : (length [q 5 2] < 2)%nat) by (cbn; lia).
  split; [exact H |].
  destruct (@descriptive_statistics_edges example_lib [q 5 2])
    as [_ [_ [E _]]].
  exact (E H).
Defined.

Lemma welch_t_test_short_group_witness :
  (length (@nil Qc) < 2)%nat
  /\ exists r,
      welch_t_test (L := example_lib) [] measured_b (q 5 100) (q 95 100) = Ok r
      /\ test_statistic r = NaN.
Proof.
  assert (H : (length (@nil Qc) < 2)%nat) by (cbn; lia).
  split; [exact H |].
  destruct (@welch_t_test_short_group example_lib [] measured_b
              (q 5 100) (q 95 100) (or_introl H))
    as [r [E [Ht _]]].
  exists r. split; [exact E | exact Ht].
Defined.

Lemma chi_squared_test_empty_group_witness :
  exists msg,
    chi_squared_test (L := example_lib) [] three_valued_b (q 5 100) (q 95 100)
    = Raise (ValueError msg).
Proof.
  exact (@chi_squared_test_empty_group example_lib [] three_valued_b
           (q 5 100) (q 95 100) (or_introl eq_refl)).
Defined.

Lemma two_proportion_z_test_swap_witness :
  converted_a <> [] /\ converted_b <> []
  /\ exists r_ab r_ba,
      two_proportion_z_test (L := example_lib) converted_a converted_b
        (q 5 100) (q 95 100) = Ok r_ab
      /\ two_proportion_z_test (L := example_lib) converted_b converted_a
           (q 5 100) (q 95 100) = Ok r_ba
      /\ test_statistic r_ba = nneg (test_statistic r_ab).
Proof.
  assert (Ha : converted_a <> []) by discriminate.
  assert (Hb : converted_b <> []) by discriminate.
  split; [exact Ha |]. split; [exact Hb |].
  destruct (@two_proportion_z_test_swap example_lib _ _ (q 5 100) (q 95 100)
              Ha Hb) as [r1 [r2 [E1 [E2 [H _]]]]].
  exists r1, r2. split; [exact E1 |]. split; [exact E2 | exact H].
Defined.

Lemma two_proportion_z_test_degenerate_witness :
  repeat 1 3 <> [] /\ repeat 1 2 <> []
  /\ sqrt_6dp 0 = 0
  /\ sum (repeat 1 3) = QcN (length (repeat 1 3))
  /\ sum (repeat 1 2) = QcN (length (repeat 1 2))
  /\ exists r,
      two_proportion_z_test (L := example_lib) (repeat 1 3) (repeat 1 2)
        (q 5 100) (q 95 100) = Ok r
      /\ test_statistic r = NaN.
Proof.
  assert (Ha : repeat 1 3 <> []) by discriminate.
  assert (Hb : repeat 1 2 <> []) by discriminate.
  assert (Sa : sum (repeat 1 3) = QcN (length (repeat 1 3)))
    by (apply Qc_is_canon; vm_compute; reflexivity).
  assert (Sb : sum (repeat 1 2) = QcN (length (repeat 1 2)))
    by (apply Qc_is_canon; vm_compute; reflexivity).
  split; [exact Ha |]. split; [exact Hb |]. split; [exact sqrt_6dp_zero |].
  split; [exact Sa |]. split; [exact Sb |].
  exact (@two_proportion_z_test_degenerate example_lib _ _
           (q 5 100) (q 95 100) Ha Hb sqrt_6dp_zero
           (or_intror (conj Sa Sb))).
Defined.

Lemma welch_t_test_zero_variance_witness :
  (2 <= 3)%nat /\ (2 <= 2)%nat
  /\ (Z.abs 5 * Z.of_nat 3 < 2 ^ 53)%Z /\ (1 <= 64)%nat
  /\ (Z.abs 7 * Z.of_nat 2 < 2 ^ 53)%Z /\ (1 <= 64)%nat
  /\ binary_fraction 5 1 = q 5 2 /\ binary_fraction 7 1 = q 7 2
  /\ exists r,
      welch_t_test (L := example_lib)
        (repeat (binary_fraction 5 1) 3) (repeat (binary_fraction 7 1) 2)
        (q 5 100) (q 95 100) = Ok r
      /\ test_statistic r = NInf.
Proof.
  assert (Ha : (2 <= 3)%nat) by lia.
  assert (Hb : (2 <= 2)%nat) by lia.
  assert (Ba : (Z.abs 5 * Z.of_nat 3 < 2 ^ 53)%Z) by (vm_compute; reflexivity).
  assert (Bb : (Z.abs 7 * Z.of_nat 2 < 2 ^ 53)%Z) by (vm_compute; reflexivity).
  assert (Ka : (1 <= 64)%nat) by lia.
  split; [exact Ha |]. split; [exact Hb |].
  split; [exact Ba |]. split; [exact Ka |].
  split; [exact Bb |]. split; [exact Ka |].
  split; [apply Qc_is_canon; vm_compute; reflexivity |].
  split; [apply Qc_is_canon; vm_compute; reflexivity |].
  destruct (@welch_t_test_zero_variance example_lib 5 7 1 1 3 2
              (q 5 100) (q 95 100) Ha Hb sqrt_6dp_zero Ba Ka Bb Ka)
    as [_ [_ [_ [_ [r [E [Ht _]]]]]]].
  exists r. split; [exact E |]. rewrite Ht. reflexivity.
Defined.

Open Scope string_scope.


Lemma convert_needs_counts_witness :
  dict_has counts_missing "continuous_values"
  && dict_has counts_50_of_100 "continuous_values" = false
  /\ dict_get counts_missing "conversions" = None
  /\ convert_ab_test_data_to_analyzer_format counts_missing counts_50_of_100
     = Fail (KeyError "conversions").
Proof.
  split; [reflexivity |]. split; [reflexivity |].
  exact (proj1 (@convert_needs_counts counts_missing counts_50_of_100 eq_refl)
           eq_refl).
Defined.

Lemma continuous_metrics_bounds_witness :
  measured_a <> []
  /\ metrics_count (calculate_continuous_metrics (L := example_lib) measured_a)
     = 5%nat
  /\ In (metrics_min (calculate_continuous_metrics (L := example_lib) measured_a))
        measured_a
  /\ exists md,
      metrics_median (calculate_continuous_metrics (L := example_lib) measured_a)
      = Fin md
      /\ In md measured_a.
Proof.
  assert (H : measured_a <> []) by discriminate.
  split; [exact H |].
  destruct (@continuous_metrics_bounds example_lib measured_a H)
    as [Hc [Hm [_ [_ Hmed]]]].
  split; [exact Hc |]. split; [exact Hm |].
  destruct (Hmed eq_refl) as [md [E [_ [Hin _]]]].
  exists md. split; [exact E | exact Hin].
Defined.

Lemma analyze_dynamic_ab_test_metrics_witness :
  exists r d,
    analyze_data (L := example_lib) singleton_inputs = Ok r
    /\ analyze_dynamic_ab_test (L := example_lib) singleton_inputs = Ok d
    /\ base_result d = r.
Proof.
  eexists.
  destruct (proj2 (@analyze_dynamic_ab_test_metrics example_lib
                     singleton_inputs) _ eq_refl) as [d [E [Hb _]]].
  exists d. split; [reflexivity |]. split; [exact E | exact Hb].
Defined.

Lemma perform_dynamic_check_needs_lists_witness :
  (forall l, get_or_none control_counts "continuous_values" <> PyList l)
  /\ perform_dynamic_check (L := example_lib)
       [control_counts; treatment_counts] usual_params
     = Fail TypeError.
Proof.
  assert (H : forall l,
             get_or_none control_counts "continuous_values" <> PyList l)
    by (intros l; discriminate).
  split; [exact H |].
  exact (@perform_dynamic_check_needs_lists example_lib
           control_counts treatment_counts [] usual_params
           (PyInt 60) (PyInt 100) (PyInt 50) (PyInt 100)
           (q 5 100) (q 8 10) (q 95 100)
           eq_refl eq_refl eq_refl eq_refl eq_refl eq_refl eq_refl
           (or_introl H)).
Defined.

Lemma perform_dynamic_check_analyzes_lists_witness :
  perform_dynamic_check (L := example_lib)
    [control_measured; treatment_measured] usual_params
  = lift (analyze_dynamic_ab_test (L := example_lib)
            {| group_a := measured_a; group_b := measured_b;
               significance_level := q 5 100; power := q 8 10;
               confidence_level := q 95 100 |}).
Proof.
  exact (proj2 (@perform_dynamic_check_analyzes_lists example_lib
                  control_measured treatment_measured [] usual_params
                  (PyInt 0) (PyInt 5) (PyInt 0) (PyInt 5)
                  measured_a measured_b (q 5 100) (q 8 10) (q 95 100))
           eq_refl eq_refl eq_refl eq_refl eq_refl eq_refl
           eq_refl eq_refl eq_refl).
Defined.

Lemma calculate_test_duration_least_witness :
  (0 <= 1000)%Z /\ (1000 * 2 < 2 ^ 53)%Z /\ (0 < 300 < 2 ^ 53)%Z
  /\ exists d,
      Statistics.calculate_test_duration 1000 300 = Done d
      /\ ((d - 1) * 300 < 1000 * 2)%Z /\ (1000 * 2 <= d * 300)%Z.
Proof.
  assert (H0 : (0 <= 1000)%Z) by lia.
  assert (H1 : (1000 * 2 < 2 ^ 53)%Z) by (vm_compute; reflexivity).
  assert (H2 : (0 < 300 < 2 ^ 53)%Z) by (split; vm_compute; reflexivity).
  split; [exact H0 |]. split; [exact H1 |]. split; [exact H2 |].
  exact (proj2 (calculate_test_duration_least 1000 300) H0 H1 H2).
Defined.



Lemma summary_z_test_agrees_witness :
  (0 <= 60 <= 100)%Z /\ (0 <= 50 <= 100)%Z /\ (0 < 100)%Z
  /\ exists s r,
      Statistics.two_proportion_z_test (L := example_lib) 60 100 50 100
        "two-tailed" = Ok s
      /\ two_proportion_z_test (L := example_lib) converted_a converted_b
           (q 5 100) (q 95 100) = Ok r
      /\ Statistics.p_value s = p_value r.
Proof.
  assert (H1 : (0 <= 60 <= 100)%Z) by lia.
  assert (H2 : (0 <= 50 <= 100)%Z) by lia.
  assert (H3 : (0 < 100)%Z) by lia.
  split; [exact H1 |]. split; [exact H2 |]. split; [exact H3 |].
  destruct (@summary_z_test_agrees example_lib 60 100 50 100
              (q 5 100) (q 95 100) H1 H2 H3 H3) as [s [r [E1 [E2 [Hp _]]]]].
  exists s, r. split; [exact E1 |]. split; [exact E2 | exact Hp].
Defined.

Close Scope string_scope.
